(** * cleanup_root.py: the root-directory reorganizer

    A shallow embedding of [cleanup()] from [cleanup_root.py] together
    with the part of the POSIX filesystem interface it calls
    ([os.listdir], [os.path.isfile], [os.path.exists], [os.path.join],
    [os.remove], [os.rename]) and of [print]. *)

From Stdlib Require Import ZArith Ascii String List Permutation Lia.
From stdpp Require Import base option gmap strings pretty.
Import ListNotations.
Open Scope string_scope.
Open Scope Z_scope.

(** ** Paths *)

Module Path.

(** [s.split(sep)] of Python, on one-character separators. *)
Fixpoint split_on (sep : ascii) (s : string) : list string :=
  match s with
  | EmptyString => [EmptyString]
  | String c s' =>
      if Ascii.eqb c sep then EmptyString :: split_on sep s'
      else match split_on sep s' with
           | [] => [String c EmptyString]
           | w :: ws => String c w :: ws
           end
  end.

(** The names the kernel walks through when it resolves a relative
    path: empty components (doubled or trailing slashes) and [.] are
    skipped.  Symbolic links and [..] are outside the model. *)
Definition components (s : string) : list string :=
  List.filter (fun w => negb (String.eqb w "") && negb (String.eqb w "."))
              (split_on "/"%char s).

Fixpoint is_prefix (p q : list string) : bool :=
  match p, q with
  | [], _ => true
  | _ :: _, [] => false
  | a :: p', b :: q' => String.eqb a b && is_prefix p' q'
  end.

(** Neither path lies on the way to the other. *)
Definition apart (p q : list string) : bool :=
  negb (is_prefix p q) && negb (is_prefix q p).

Definition parent (p : list string) : list string := removelast p.

Definition ends_with_slash (s : string) : bool :=
  match rev (list_ascii_of_string s) with
  | c :: _ => Ascii.eqb c "/"%char
  | [] => false
  end.

Definition starts_with_slash (s : string) : bool :=
  match s with
  | String c _ => Ascii.eqb c "/"%char
  | EmptyString => false
  end.

(** [os.path.join(a, b)] (posixpath). *)
Definition join (a b : string) : string :=
  if starts_with_slash b then b
  else if String.eqb a "" || ends_with_slash a then a ++ b
  else a ++ "/" ++ b.

End Path.

(** ** The filesystem below the working directory *)

(** What the process may do with a directory: list its names, and add,
    remove or rename entries in it.  (Searching it is taken as allowed.) *)
Record perms : Type := Perms { readable : bool; writable : bool }.

#[warnings="-register-all"]
Inductive node : Type :=
  | File (data : string)
  | Dir (mode : perms) (entries : gmap string node).

Module FS.

Fixpoint lookup (p : list string) (n : node) : option node :=
  match p with
  | [] => Some n
  | c :: p' =>
      match n with
      | File _ => None
      | Dir _ es => match es !! c with
                    | Some n' => lookup p' n'
                    | None => None
                    end
      end
  end.

(** Rewrites the directory entry named by [p]: [f] receives the entry
    found there (if any) and returns the one to leave. *)
Fixpoint update (p : list string) (f : option node -> option node)
    (n : node) : option node :=
  match p with
  | [] => None
  | c :: p' =>
      match n with
      | File _ => None
      | Dir w es =>
          match p' with
          | [] => Some (Dir w (partial_alter f c es))
          | _ :: _ =>
              match es !! c with
              | Some n' =>
                  match update p' f n' with
                  | Some n'' => Some (Dir w (<[c := n'']> es))
                  | None => None
                  end
              | None => None
              end
          end
      end
  end.

(** On a walk along [p], a regular file stands where a directory is
    needed (and then the walk finds no entry). *)
Fixpoint file_in_way (p : list string) (n : node) : bool :=
  match p with
  | [] => false
  | c :: p' =>
      match n with
      | File _ => true
      | Dir _ es => match es !! c with
                    | Some n' => file_in_way p' n'
                    | None => false
                    end
      end
  end.

End FS.

(** ** The operating-system interface *)

Inductive exn : Type :=
  | FileNotFoundError
  | PermissionError
  | IsADirectoryError
  | NotADirectoryError
  | OSError.

Module OS.

Definition dir_writable (p : list string) (n : node) : bool :=
  match FS.lookup p n with
  | Some (Dir m _) => writable m
  | _ => false
  end.

(** The error of a path that resolves to nothing: [ENOTDIR] when a
    regular file stands in the way, [ENOENT] otherwise. *)
Definition walk_error (p : list string) (n : node) : exn :=
  if FS.file_in_way p n then NotADirectoryError else FileNotFoundError.

Definition same_path (p q : list string) : bool :=
  Path.is_prefix p q && Path.is_prefix q p.

(** [os.path.exists(path)]: [stat] succeeds. *)
Definition path_exists (path : string) (n : node) : bool :=
  negb (String.eqb path "") &&
  match FS.lookup (Path.components path) n with
  | Some _ => true
  | None => false
  end.

(** [os.path.isfile(path)]. *)
Definition path_isfile (path : string) (n : node) : bool :=
  negb (String.eqb path "") &&
  match FS.lookup (Path.components path) n with
  | Some (File _) => true
  | _ => false
  end.

(** [os.listdir(path)]; the order of the names is the map's. *)
Definition listdir (path : string) (n : node) : exn + list string :=
  if String.eqb path "" then inl FileNotFoundError
  else match FS.lookup (Path.components path) n with
       | None => inl (walk_error (Path.components path) n)
       | Some (File _) => inl NotADirectoryError
       | Some (Dir m es) =>
           if readable m then inr (List.map fst (map_to_list es))
           else inl PermissionError
       end.

(** [os.remove(path)], that is [unlink(2)]: a failing call leaves the
    filesystem as it was. *)
Definition remove (path : string) (n : node) : exn + node :=
  if String.eqb path "" then inl FileNotFoundError
  else
    let p := Path.components path in
    match FS.lookup p n with
    | None => inl (walk_error p n)
    | Some victim =>
        if negb (dir_writable (Path.parent p) n) then inl PermissionError
        else match victim with
             | Dir _ _ => inl IsADirectoryError
             | File _ =>
                 match FS.update p (fun _ => None) n with
                 | Some n' => inr n'
                 | None => inl OSError
                 end
             end
    end.

(** What [rename(2)] does with an entry already at the destination. *)
Definition replaceable (moved : node) (at_dst : option node) : exn + unit :=
  match at_dst, moved with
  | None, _ => inr tt
  | Some (File _), File _ => inr tt
  | Some (File _), Dir _ _ => inl NotADirectoryError
  | Some (Dir _ _), File _ => inl IsADirectoryError
  | Some (Dir _ es), Dir _ _ =>
      match map_to_list es with
      | [] => inr tt
      | _ :: _ => inl OSError
      end
  end.

(** A directory that changes its parent must itself be writable (its
    [..] entry is rewritten). *)
Definition movable (moved : node) (ps pd : list string) : bool :=
  match moved with
  | File _ => true
  | Dir m _ =>
      writable m || same_path (Path.parent ps) (Path.parent pd)
  end.

(** [os.rename(src, dst)], that is [rename(2)]: the entry (a file, or a
    directory with all it holds) leaves [src] and appears at [dst]. *)
Definition rename (src dst : string) (n : node) : exn + node :=
  if String.eqb src "" || String.eqb dst "" then inl FileNotFoundError
  else
    let ps := Path.components src in
    let pd := Path.components dst in
    match FS.lookup ps n with
    | None => inl (walk_error ps n)
    | Some moved =>
        match FS.lookup (Path.parent pd) n with
        | None => inl (walk_error (Path.parent pd) n)
        | Some (File _) => inl NotADirectoryError
        | Some (Dir md _) =>
            if same_path ps pd then inr n
            else if Path.is_prefix ps pd then inl OSError
            else if negb (dir_writable (Path.parent ps) n && writable md)
                 then inl PermissionError
            else if negb (movable moved ps pd) then inl PermissionError
            else match replaceable moved (FS.lookup pd n) with
                 | inl e => inl e
                 | inr _ =>
                     match FS.update ps (fun _ => None) n with
                     | None => inl OSError
                     | Some n1 =>
                         match FS.update pd (fun _ => Some moved) n1 with
                         | None => inl OSError
                         | Some n2 => inr n2
                         end
                     end
                 end
        end
    end.

End OS.

(** ** Running Python statements: a filesystem, a console, exceptions *)

Record world : Type := World { fs : node; stdout : list string }.

Inductive outcome (A : Type) : Type :=
  | Return (a : A) (w : world)
  | Raise (e : exn) (w : world).
Arguments Return {A} a w.
Arguments Raise {A} e w.

Definition M (A : Type) : Type := world -> outcome A.

Definition ret {A} (a : A) : M A := fun w => Return a w.

Definition bind {A B} (m : M A) (k : A -> M B) : M B :=
  fun w => match m w with
           | Return a w' => k a w'
           | Raise e w' => Raise e w'
           end.

Declare Scope py_scope.
Delimit Scope py_scope with py.
Notation "x <- m ;; k" := (bind m (fun x => k))
  (at level 100, m at next level, right associativity) : py_scope.
Notation "m ;;; k" := (bind m (fun _ => k))
  (at level 100, right associativity) : py_scope.
Open Scope py_scope.

(** The world an outcome ends in, returned or raised. *)
Definition world_of {A} (o : outcome A) : world :=
  match o with
  | Return _ w => w
  | Raise _ w => w
  end.

Definition print (line : string) : M unit :=
  fun w => Return tt {| fs := fs w; stdout := stdout w ++ [line] |}.

Definition lift_read {A} (f : node -> A) : M A :=
  fun w => Return (f (fs w)) w.

Definition lift_call {A} (f : node -> exn + A) : M A :=
  fun w => match f (fs w) with
           | inr a => Return a w
           | inl e => Raise e w
           end.

Definition lift_write (f : node -> exn + node) : M unit :=
  fun w => match f (fs w) with
           | inr n' => Return tt {| fs := n'; stdout := stdout w |}
           | inl e => Raise e w
           end.

Definition os_path_exists (path : string) : M bool :=
  lift_read (OS.path_exists path).
Definition os_path_isfile (path : string) : M bool :=
  lift_read (OS.path_isfile path).
Definition os_listdir (path : string) : M (list string) :=
  lift_call (OS.listdir path).
Definition os_remove (path : string) : M unit :=
  lift_write (OS.remove path).
Definition os_rename (src dst : string) : M unit :=
  lift_write (OS.rename src dst).

(** [for x in l: s = body(x, s)] *)
Fixpoint for_each {A S} (body : A -> S -> M S) (l : list A) (s : S) : M S :=
  match l with
  | [] => ret s
  | x :: l' => s' <- body x s ;; for_each body l' s'
  end.

(** [[x for x in l if keep(x)]] *)
Fixpoint comprehension {A} (keep : A -> M bool) (l : list A) : M (list A) :=
  match l with
  | [] => ret []
  | x :: l' =>
      b <- keep x ;;
      r <- comprehension keep l' ;;
      ret (if b then x :: r else r)
  end.

(** ** The script *)

(** The dictionary literal of [cleanup], in insertion order (its keys
    are pairwise different, so [mapping.items()] yields these pairs). *)
Definition mapping : list (string * list string) :=
  [
    ("client/src/components/ui/",
     [ "accordion.tsx"; "alert-dialog.tsx"; "alert.tsx"; "aspect-ratio.tsx";
      "avatar.tsx"; "badge.tsx"; "breadcrumb.tsx"; "button-group.tsx";
      "button.tsx"; "calendar.tsx"; "card.tsx"; "carousel.tsx";
      "chart.tsx"; "checkbox.tsx"; "collapsible.tsx"; "command.tsx";
      "context-menu.tsx"; "dialog.tsx"; "drawer.tsx"; "dropdown-menu.tsx";
      "empty.tsx"; "field.tsx"; "form.tsx"; "hover-card.tsx";
      "input-group.tsx"; "input-otp.tsx"; "input.tsx"; "item.tsx";
      "kbd.tsx"; "label.tsx"; "menubar.tsx"; "navigation-menu.tsx";
      "pagination.tsx"; "popover.tsx"; "progress.tsx"; "radio-group.tsx";
      "resizable.tsx"; "scroll-area.tsx"; "select.tsx"; "separator.tsx";
      "sheet.tsx"; "sidebar.tsx"; "skeleton.tsx"; "slider.tsx";
      "sonner.tsx"; "spinner.tsx"; "switch.tsx"; "table.tsx"; "tabs.tsx";
      "textarea.tsx"; "toggle-group.tsx"; "toggle.tsx"; "tooltip.tsx" ]);
    ("server/",
     [ "accountSecurity.ts"; "adminRouter.ts"; "auth.comprehensive.test.ts";
      "auth.logout.test.ts"; "auth.test.ts"; "auth.ts"; "authRouter.ts";
      "cryptoWalletRouter.ts"; "cryptoWalletSystem.ts";
      "currencyExchange.ts"; "db.ts"; "dbInit.ts"; "degensdenRouter.ts";
      "degensdenSlots.ts"; "emailVerification.ts";
      "gameHistoryTracking.ts"; "gameLogic.test.ts"; "gameLogic.ts";
      "games.ts"; "leaderboardRouter.ts"; "leaderboardSystem.ts";
      "liveFeatures.ts"; "liveRouter.ts"; "osrsDepositWithdraw.ts";
      "osrsGamblingFeatures.ts"; "osrsGamblingRouter.ts"; "osrsSystem.ts";
      "passwordReset.ts"; "provablyFair.ts"; "qrcodeSystem.ts";
      "routers.ts"; "securityMiddleware.ts"; "storage.ts";
      "trustWalletConfig.ts"; "trustWalletRouter.ts"; "updateModule.ts";
      "userStatsComprehensive.ts"; "userStatsRouter.ts";
      "userStatsSystem.ts"; "vipAndLeaderboard.test.ts";
      "vipProgressRouter.ts"; "vipProgressSystem.ts";
      "vipProgressVisualization.ts"; "wagerSystem.ts";
      "wallet.comprehensive.test.ts"; "wallet.test.ts"; "wallet.ts";
      "walletRouter.ts" ]);
    ("server/_core/",
     [ "advancedRateLimiter.ts"; "config.ts"; "context.ts"; "cookies.ts";
      "dataApi.ts"; "env.ts"; "errorHandler.ts"; "imageGeneration.ts";
      "index.ts"; "llm.ts"; "logger.ts"; "map.ts"; "notification.ts";
      "oauth.ts"; "sdk.ts"; "systemRouter.ts"; "trpc.ts"; "vite.ts";
      "voiceTranscription.ts" ]);
    ("server/_core/types/",
     [ "cookie.d.ts"; "manusTypes.ts" ]);
    ("shared/",
     [ "const.ts"; "types.ts" ]);
    ("shared/_core/",
     [ "errors.ts" ]);
    ("drizzle/",
     [ "schema.ts"; "relations.ts" ]);
    ("client/src/",
     [ "App.tsx"; "main.tsx"; "index.css" ]);
    ("client/",
     [ "index.html" ]);
    ("client/src/components/",
     [ "DashboardLayout.tsx"; "DashboardLayoutSkeleton.tsx";
      "ErrorBoundary.tsx" ])
  ].

(** A Python value, as far as [cleanup] returns one. *)
#[warnings="-register-all"]
Inductive pyval : Type :=
  | PyNone
  | PyInt (z : Z)
  | PyTuple (items : list pyval).

Definition removing_line (filename target_dir : string) : string :=
  "Removing duplicate: " +:+ filename +:+ " (already in " +:+ target_dir +:+ ")".

Definition moving_line (filename target_dir : string) : string :=
  "Moving " +:+ filename +:+ " to " +:+ target_dir.

Definition finished_line (deleted_count moved_count : Z) : string :=
  "Cleanup finished. Deleted: " +:+ pretty deleted_count +:+
  ", Moved: " +:+ pretty moved_count.

(** Lines 73-85: the body of the inner loop.  The loop state is the
    pair of the locals [(deleted_count, moved_count)]. *)
Definition cleanup_body (target_dir filename : string)
    (counts : Z * Z) : M (Z * Z) :=
  let '(deleted_count, moved_count) := counts in
  here <- os_path_exists filename ;;
  if here : bool then
    let target_path := Path.join target_dir filename in
    there <- os_path_exists target_path ;;
    if there : bool then
      (print (removing_line filename target_dir) ;;;
       os_remove filename ;;;
       ret (deleted_count + 1, moved_count))
    else
      (print (moving_line filename target_dir) ;;;
       os_rename filename target_path ;;;
       ret (deleted_count, moved_count + 1))
  else ret (deleted_count, moved_count).

(** Lines 71-85 over a given table. *)
Definition cleanup_loops (table : list (string * list string))
    (counts : Z * Z) : M (Z * Z) :=
  for_each (fun '(target_dir, files) =>
              for_each (cleanup_body target_dir) files)
           table counts.

(** Lines 68-85: the counters are initialised and the table is walked;
    the result is the value of [(deleted_count, moved_count)] when the
    loops are left. *)
Definition cleanup_count (table : list (string * list string)) : M (Z * Z) :=
  let deleted_count := 0 in
  let moved_count := 0 in
  cleanup_loops table (deleted_count, moved_count).

(** Line 5. *)
Definition list_root_files : M (list string) :=
  names <- os_listdir "." ;;
  comprehension os_path_isfile names.

(** Lines 7-87, with [root_files] bound by line 5.  The function has no
    [return] statement: its value is [None]. *)
Definition cleanup_from (table : list (string * list string))
    (root_files : list string) : M pyval :=
  counts <- cleanup_count table ;;
  print (finished_line (fst counts) (snd counts)) ;;;
  ret PyNone.

Definition cleanup_with (table : list (string * list string)) : M pyval :=
  root_files <- list_root_files ;;
  cleanup_from table root_files.

Definition cleanup : M pyval := cleanup_with mapping.

(** ** Vocabulary of the properties *)

(** The pairs [(target_dir, filename)] in the order the two loops visit
    them. *)
Definition entries (table : list (string * list string))
    : list (string * string) :=
  flat_map (fun '(target_dir, files) => List.map (pair target_dir) files)
           table.

(** All filenames of the table, in the same order. *)
Definition filenames (table : list (string * list string)) : list string :=
  List.map snd (entries table).

(** One iteration of the inner loop, and a run of iterations. *)
Definition visit (e : string * string) : Z * Z -> M (Z * Z) :=
  cleanup_body (fst e) (snd e).

Definition visit_all : list (string * string) -> Z * Z -> M (Z * Z) :=
  for_each visit.

(** Where an entry is looked for at the root, and where it belongs. *)
Definition src_of (e : string * string) : list string :=
  Path.components (snd e).

Definition dst_of (e : string * string) : list string :=
  Path.components (Path.join (fst e) (snd e)).

Definition at_root (n : node) (e : string * string) : bool :=
  OS.path_exists (snd e) n.

Definition at_target (n : node) (e : string * string) : bool :=
  OS.path_exists (Path.join (fst e) (snd e)) n.

Definition duplicated (n : node) (e : string * string) : bool :=
  at_root n e && at_target n e.

Definition misplaced (n : node) (e : string * string) : bool :=
  at_root n e && negb (at_target n e).

Definition action_lines (n : node) (e : string * string) : list string :=
  if at_root n e then
    [if at_target n e then removing_line (snd e) (fst e)
     else moving_line (snd e) (fst e)]
  else [].

Definition count_of (f : string * string -> bool)
    (l : list (string * string)) : Z :=
  Z.of_nat (length (List.filter f l)).

(** The root path and the target path of an entry do not lie on the way
    to one another, and the same holds between different entries. *)
Definition entry_ok (e : string * string) : bool :=
  Path.apart (src_of e) (dst_of e).

Definition entries_apart (e e' : string * string) : bool :=
  Path.apart (src_of e) (src_of e') && Path.apart (src_of e) (dst_of e') &&
  Path.apart (dst_of e) (src_of e') && Path.apart (dst_of e) (dst_of e').

Fixpoint table_ok (l : list (string * string)) : bool :=
  match l with
  | [] => true
  | e :: l' => entry_ok e && forallb (entries_apart e) l' && table_ok l'
  end.

(** No name occurs twice in a list of strings. *)
Fixpoint distinct (l : list string) : bool :=
  match l with
  | [] => true
  | x :: l' => negb (existsb (String.eqb x) l') && distinct l'
  end.

(** Relative to the tree [n0] the run started in: nothing has happened
    yet at the two paths of the entries of [l]. *)
Definition untouched (n0 n : node) (l : list (string * string)) : Prop :=
  forall e, In e l ->
    FS.lookup (src_of e) n = FS.lookup (src_of e) n0 /\
    FS.lookup (dst_of e) n = FS.lookup (dst_of e) n0.

(** The entry has been dealt with: nothing is left at the root, and the
    target holds what it held, or else what the root held. *)
Definition settled (n0 n : node) (e : string * string) : Prop :=
  FS.lookup (src_of e) n = None /\
  FS.lookup (dst_of e) n =
    match FS.lookup (dst_of e) n0 with
    | Some x => Some x
    | None => FS.lookup (src_of e) n0
    end.

(** The path [q] is apart from every path of the entries of [l]. *)
Definition clear_of (q : list string) (l : list (string * string)) : Prop :=
  forall e, In e l ->
    Path.apart q (src_of e) = true /\ Path.apart q (dst_of e) = true.

(** The pair [(target_dir, filename)] is in the table. *)
Definition listed (table : list (string * list string))
    (target_dir filename : string) : bool :=
  existsb (fun e => String.eqb (fst e) target_dir && String.eqb (snd e) filename)
          (entries table).

Definition is_folder (n : node) : bool :=
  match n with
  | Dir _ _ => true
  | File _ => false
  end.

(** ** Sample trees *)

Definition folder (l : list (string * node)) : node :=
  Dir (Perms true true) (list_to_map l).

(** An empty working directory. *)
Definition bare_world : world := World (folder []) [].

(** [button.tsx] waits at the root for its (empty) target directory;
    [auth.ts] is at the root and in [server/] with different contents. *)
Definition sample_world : world :=
  World
    (folder
       [("button.tsx", File "export Button");
        ("auth.ts", File "stale");
        ("README.md", File "readme");
        ("client",
         folder [("src", folder [("components", folder [("ui", folder [])])])]);
        ("server", folder [("auth.ts", File "current")])])
    [].

(** [button.tsx] can be moved, but [server/] does not exist when the
    turn of [auth.ts] comes; [index.html] waits further down the table. *)
Definition stray_world : world :=
  World
    (folder
       [("button.tsx", File "export Button");
        ("auth.ts", File "auth");
        ("index.html", File "<html>");
        ("client",
         folder [("src", folder [("components", folder [("ui", folder [])])])])])
    [].

(** [button.tsx] cannot be moved, [client/] being absent; [auth.ts],
    further down the table, is at the root and in [server/]. *)
Definition halted_world : world :=
  World
    (folder
       [("button.tsx", File "export Button");
        ("auth.ts", File "stale");
        ("server", folder [("auth.ts", File "current")])])
    [].

(** A directory named [index.html] at the root, and [client/]. *)
Definition odd_world : world :=
  World
    (folder
       [("index.html", folder [("notes.txt", File "n")]);
        ("client", folder [])])
    [].

(** ** Vocabulary of the further properties *)

(** What [stat] tells about a path: nothing there, a regular file, or
    a directory with its permissions. *)
Definition kind_at (q : list string) (n : node) : option (option perms) :=
  match FS.lookup q n with
  | None => None
  | Some (File _) => Some None
  | Some (Dir m _) => Some (Some m)
  end.

(** What the operation of an iteration needs from the tree: to delete
    the root copy, a writable directory around it and a regular file;
    to move it, writable directories around both paths and, for a
    directory that changes its parent, write permission on it. *)
Definition ready (n : node) (e : string * string) : bool :=
  OS.dir_writable (Path.parent (src_of e)) n &&
  (if at_target n e then
     match FS.lookup (src_of e) n with
     | Some (File _) => true
     | _ => false
     end
   else
     OS.dir_writable (Path.parent (dst_of e)) n &&
     match FS.lookup (src_of e) n with
     | Some moved => OS.movable moved (src_of e) (dst_of e)
     | None => false
     end).

(** [os.listdir] can list the directory. *)
Definition listable (n : node) : bool :=
  match n with
  | Dir m _ => readable m
  | File _ => false
  end.

(** The value line 5 gives to [root_files], when it returns. *)
Definition root_files_of (w : world) : list string :=
  match list_root_files w with
  | Return names _ => names
  | Raise _ _ => []
  end.


(** Relative to the tree [n0] the run started in: the entries of [l]
    are untouched, and the directories around their paths are of the
    same kind. *)
Definition steady (n0 n : node) (l : list (string * string)) : Prop :=
  forall e, In e l ->
    FS.lookup (src_of e) n = FS.lookup (src_of e) n0 /\
    FS.lookup (dst_of e) n = FS.lookup (dst_of e) n0 /\
    kind_at (Path.parent (src_of e)) n = kind_at (Path.parent (src_of e)) n0 /\
    kind_at (Path.parent (dst_of e)) n = kind_at (Path.parent (dst_of e)) n0.

(** The path [q] is apart from the root path and the target path of
    every entry of [l]. *)
Definition unlisted (q : list string) (l : list (string * string)) : bool :=
  forallb (fun e => Path.apart q (src_of e) && Path.apart q (dst_of e)) l.

(** [q] is neither at nor below a path of an entry of [l]. *)
Definition off_paths (q : list string) (l : list (string * string)) : bool :=
  forallb (fun e => negb (Path.is_prefix (src_of e) q) &&
                    negb (Path.is_prefix (dst_of e) q)) l.


(** [README.md] and the listed [button.tsx] are at the root; so is a
    directory named [auth.ts], while [server/auth.ts] exists. *)
Definition locked_world : world :=
  World
    (folder
       [("README.md", File "readme");
        ("button.tsx", File "export Button");
        ("auth.ts", folder []);
        ("index.html", File "<html>");
        ("client",
         folder [("src", folder [("components", folder [("ui", folder [])])])]);
        ("server", folder [("auth.ts", File "current")])])
    [].

(** * Properties *)

(** ** Paths and the tree *)

Section tree_facts.

Lemma apart_sym p q : Path.apart p q = Path.apart q p.
Proof. unfold Path.apart. apply andb_comm. Qed.

Lemma apart_elim p q :
  Path.apart p q = true ->
  Path.is_prefix p q = false /\ Path.is_prefix q p = false.
Proof.
  unfold Path.apart. intros H. apply andb_prop in H as [H1 H2].
  split; apply negb_true_iff; assumption.
Qed.

Lemma apart_nonempty p q : Path.apart p q = true -> p <> [] /\ q <> [].
Proof.
  intros H. apply apart_elim in H as [H1 H2].
  split; intros ->; simpl in *; [discriminate|].
  destruct p; discriminate.
Qed.

Lemma components_nonempty s : Path.components s <> [] -> String.eqb s "" = false.
Proof.
  intros H. destruct (String.eqb_spec s ""); [subst; contradiction H|];
    reflexivity.
Qed.

Lemma update_nil f n : FS.update [] f n = None.
Proof. reflexivity. Qed.

Lemma update_last c f w es :
  FS.update [c] f (Dir w es) = Some (Dir w (partial_alter f c es)).
Proof. reflexivity. Qed.

Lemma update_below c c2 p f w es :
  FS.update (c :: c2 :: p) f (Dir w es) =
  match es !! c with
  | Some n' =>
      match FS.update (c2 :: p) f n' with
      | Some n'' => Some (Dir w (<[c := n'']> es))
      | None => None
      end
  | None => None
  end.
Proof. reflexivity. Qed.

(** An update at [p] is invisible at every path apart from [p]. *)
Lemma lookup_update_apart p :
  forall f n n' q,
    FS.update p f n = Some n' ->
    Path.is_prefix p q = false -> Path.is_prefix q p = false ->
    FS.lookup q n' = FS.lookup q n.
Proof.
  induction p as [|c p' IH]; intros f n n' q Hup Hpq Hqp; [discriminate|].
  destruct n as [d|w es]; [destruct p'; discriminate|].
  destruct q as [|c' q']; [discriminate|].
  destruct p' as [|c2 p''].
  - rewrite update_last in Hup. injection Hup as <-. simpl in Hpq.
    rewrite andb_true_r in Hpq. apply String.eqb_neq in Hpq.
    simpl. rewrite lookup_partial_alter_ne by assumption. reflexivity.
  - rewrite update_below in Hup.
    destruct (es !! c) as [n0|] eqn:Hc; [|discriminate].
    destruct (FS.update (c2 :: p'') f n0) as [n1|] eqn:Hrec; [|discriminate].
    injection Hup as <-.
    cbn [Path.is_prefix] in Hpq, Hqp. cbn [FS.lookup].
    destruct (String.eqb_spec c c') as [->|Hne].
    + rewrite String.eqb_refl in Hqp. simpl in Hpq, Hqp.
      rewrite lookup_insert_eq, Hc. eapply IH; eassumption.
    + rewrite lookup_insert_ne by assumption. reflexivity.
Qed.

(** At [p] itself the update leaves what [f] returned. *)
Lemma lookup_update_self p :
  forall f n n',
    FS.update p f n = Some n' ->
    FS.lookup p n' = f (FS.lookup p n).
Proof.
  induction p as [|c p' IH]; intros f n n' Hup; [discriminate|].
  destruct n as [d|w es]; [destruct p'; discriminate|].
  destruct p' as [|c2 p''].
  - rewrite update_last in Hup. injection Hup as <-. simpl.
    rewrite lookup_partial_alter_eq.
    destruct (es !! c); destruct (f _); reflexivity.
  - rewrite update_below in Hup.
    destruct (es !! c) as [n0|] eqn:Hc; [|discriminate].
    destruct (FS.update (c2 :: p'') f n0) as [n1|] eqn:Hrec; [|discriminate].
    injection Hup as <-.
    cbn [FS.lookup]. rewrite lookup_insert_eq, Hc.
    apply IH. assumption.
Qed.

(** [os.remove]: the path is gone, the rest of the tree stays. *)
Lemma remove_ok path n n' :
  OS.remove path n = inr n' ->
  FS.lookup (Path.components path) n' = None /\
  forall q, Path.apart q (Path.components path) = true ->
            FS.lookup q n' = FS.lookup q n.
Proof.
  unfold OS.remove. destruct (String.eqb path ""); [discriminate|].
  destruct (FS.lookup _ n) as [victim|]; [|discriminate].
  destruct (negb _); [discriminate|].
  destruct victim; [|discriminate].
  destruct (FS.update _ _ n) as [n1|] eqn:Hup; [|discriminate].
  intros [= <-]. split.
  - apply lookup_update_self in Hup. assumption.
  - intros q Hq. apply apart_elim in Hq as [H1 H2].
    eapply lookup_update_apart; eassumption.
Qed.

(** [os.rename] between two paths that are apart: the entry leaves the
    source, arrives at the destination, and the rest of the tree stays. *)
Lemma rename_ok src dst n n' :
  Path.apart (Path.components src) (Path.components dst) = true ->
  OS.rename src dst n = inr n' ->
  FS.lookup (Path.components src) n' = None /\
  FS.lookup (Path.components dst) n' = FS.lookup (Path.components src) n /\
  forall q, Path.apart q (Path.components src) = true ->
            Path.apart q (Path.components dst) = true ->
            FS.lookup q n' = FS.lookup q n.
Proof.
  intros Hap. unfold OS.rename. destruct (_ || _); [discriminate|].
  destruct (FS.lookup (Path.components src) n) as [moved|] eqn:Hsrc;
    [|discriminate].
  destruct (FS.lookup (Path.parent _) n) as [[d|wd es]|]; try discriminate.
  destruct (apart_elim _ _ Hap) as [Hsd Hds].
  unfold OS.same_path. rewrite Hsd. simpl.
  destruct (negb (_ && _)); [discriminate|].
  destruct (negb (OS.movable _ _ _)); [discriminate|].
  destruct (OS.replaceable _ _); [discriminate|].
  destruct (FS.update (Path.components src) _ n) as [n1|] eqn:Hup1;
    [|discriminate].
  destruct (FS.update (Path.components dst) _ n1) as [n2|] eqn:Hup2;
    [|discriminate].
  intros [= <-]. repeat split.
  - rewrite (lookup_update_apart _ _ _ _ _ Hup2 Hds Hsd).
    apply (lookup_update_self _ _ _ _ Hup1).
  - apply (lookup_update_self _ _ _ _ Hup2).
  - intros q Hq1 Hq2.
    apply apart_elim in Hq1 as [? ?]. apply apart_elim in Hq2 as [? ?].
    rewrite (lookup_update_apart _ _ _ _ q Hup2) by assumption.
    apply (lookup_update_apart _ _ _ _ q Hup1); assumption.
Qed.

End tree_facts.

(** ** One iteration *)

Section one_visit.

Lemma path_exists_lookup s n :
  Path.components s <> [] ->
  OS.path_exists s n =
  match FS.lookup (Path.components s) n with Some _ => true | None => false end.
Proof.
  intros H. unfold OS.path_exists. rewrite (components_nonempty _ H).
  reflexivity.
Qed.

Lemma entry_ok_nonempty e :
  entry_ok e = true -> src_of e <> [] /\ dst_of e <> [].
Proof. apply apart_nonempty. Qed.

Lemma at_root_lookup e n :
  entry_ok e = true ->
  at_root n e =
  match FS.lookup (src_of e) n with Some _ => true | None => false end.
Proof.
  intros H. apply path_exists_lookup. apply (entry_ok_nonempty e H).
Qed.

Lemma at_target_lookup e n :
  entry_ok e = true ->
  at_target n e =
  match FS.lookup (dst_of e) n with Some _ => true | None => false end.
Proof.
  intros H. apply path_exists_lookup. apply (entry_ok_nonempty e H).
Qed.

(** The iteration, with the monad unfolded: which branch runs depends
    on the filesystem through the two [os.path.exists] calls only. *)
Lemma cleanup_body_unfold target_dir filename d m w :
  cleanup_body target_dir filename (d, m) w =
  if OS.path_exists filename (fs w) then
    if OS.path_exists (Path.join target_dir filename) (fs w) then
      let out := (stdout w ++ [removing_line filename target_dir])%list in
      match OS.remove filename (fs w) with
      | inr n' => Return (d + 1, m) {| fs := n'; stdout := out |}
      | inl x => Raise x {| fs := fs w; stdout := out |}
      end
    else
      let out := (stdout w ++ [moving_line filename target_dir])%list in
      match OS.rename filename (Path.join target_dir filename) (fs w) with
      | inr n' => Return (d, m + 1) {| fs := n'; stdout := out |}
      | inl x => Raise x {| fs := fs w; stdout := out |}
      end
  else Return (d, m) w.
Proof.
  unfold cleanup_body, bind, os_path_exists, lift_read, ret, print,
    os_remove, os_rename, lift_write.
  destruct (OS.path_exists filename (fs w)); [|reflexivity].
  destruct (OS.path_exists _ (fs w)); cbn [fs stdout].
  - destruct (OS.remove _ _); reflexivity.
  - destruct (OS.rename _ _ _); reflexivity.
Qed.

(** What an iteration that returns has done. *)
Lemma visit_return e c w c' w' :
  entry_ok e = true ->
  visit e c w = Return c' w' ->
  c' = (fst c + (if duplicated (fs w) e then 1 else 0),
        snd c + (if misplaced (fs w) e then 1 else 0)) /\
  stdout w' = (stdout w ++ action_lines (fs w) e)%list /\
  FS.lookup (src_of e) (fs w') = None /\
  FS.lookup (dst_of e) (fs w') =
    match FS.lookup (dst_of e) (fs w) with
    | Some x => Some x
    | None => FS.lookup (src_of e) (fs w)
    end /\
  (forall q, Path.apart q (src_of e) = true ->
             Path.apart q (dst_of e) = true ->
             FS.lookup q (fs w') = FS.lookup q (fs w)) /\
  (at_root (fs w) e = false -> w' = w).
Proof.
  intros Hok. pose proof (at_root_lookup e (fs w) Hok) as Hr.
  pose proof (at_target_lookup e (fs w) Hok) as Ht.
  unfold visit, duplicated, misplaced, action_lines.
  destruct c as [d m]. rewrite cleanup_body_unfold.
  fold (at_root (fs w) e). fold (at_target (fs w) e).
  destruct (at_root (fs w) e) eqn:Hroot.
  - destruct (at_target (fs w) e) eqn:Htgt; cbn [andb negb].
    + destruct (OS.remove (snd e) (fs w)) as [x|n'] eqn:Hrm; [discriminate|].
      intros [= <- <-]. cbn [fs stdout fst snd].
      destruct (remove_ok _ _ _ Hrm) as [Hgone Hframe].
      fold (src_of e) in Hgone, Hframe.
      repeat split; try assumption.
      * f_equal. lia.
      * rewrite Hframe by (rewrite apart_sym; exact Hok).
        destruct (FS.lookup (dst_of e) (fs w)); [reflexivity|discriminate].
      * intros q Hq _. apply Hframe, Hq.
      * discriminate.
    + destruct (OS.rename (snd e) _ (fs w)) as [x|n'] eqn:Hmv; [discriminate|].
      intros [= <- <-]. cbn [fs stdout fst snd].
      destruct (rename_ok _ _ _ _ Hok Hmv) as (Hgone & Hthere & Hframe).
      fold (src_of e) in Hgone, Hthere, Hframe.
      fold (dst_of e) in Hthere, Hframe.
      repeat split; try assumption.
      * f_equal. lia.
      * rewrite Hthere.
        destruct (FS.lookup (dst_of e) (fs w)); [discriminate|reflexivity].
      * discriminate.
  - intros [= <- <-]. cbn [fst snd andb].
    destruct (FS.lookup (src_of e) (fs w)) eqn:Hsrc; [discriminate|].
    repeat split.
    + f_equal; lia.
    + rewrite app_nil_r. reflexivity.
    + destruct (FS.lookup (dst_of e) (fs w)); reflexivity.
Qed.

(** An iteration that raises has printed its line and changed nothing
    else; the filename it visited was at the root. *)
Lemma visit_raise e c w x w' :
  visit e c w = Raise x w' ->
  at_root (fs w) e = true /\
  fs w' = fs w /\
  stdout w' = (stdout w ++ action_lines (fs w) e)%list.
Proof.
  unfold visit, action_lines. destruct c as [d m].
  rewrite cleanup_body_unfold.
  fold (at_root (fs w) e). fold (at_target (fs w) e).
  destruct (at_root (fs w) e); [|discriminate].
  destruct (at_target (fs w) e).
  - destruct (OS.remove _ _); [|discriminate].
    intros [= <- <-]. auto.
  - destruct (OS.rename _ _ _); [|discriminate].
    intros [= <- <-]. auto.
Qed.

End one_visit.

(** ** Tables whose paths are apart *)

Section tables.

Lemma entries_apart_sym e e' : entries_apart e e' = entries_apart e' e.
Proof.
  unfold entries_apart.
  rewrite (apart_sym (src_of e) (src_of e')), (apart_sym (src_of e) (dst_of e')),
    (apart_sym (dst_of e) (src_of e')), (apart_sym (dst_of e) (dst_of e')).
  destruct (Path.apart (src_of e') (src_of e)), (Path.apart (dst_of e') (src_of e)),
    (Path.apart (src_of e') (dst_of e)), (Path.apart (dst_of e') (dst_of e));
    reflexivity.
Qed.

Lemma entries_apart_elim e e' :
  entries_apart e e' = true ->
  Path.apart (src_of e) (src_of e') = true /\
  Path.apart (src_of e) (dst_of e') = true /\
  Path.apart (dst_of e) (src_of e') = true /\
  Path.apart (dst_of e) (dst_of e') = true.
Proof.
  unfold entries_apart. intros H.
  apply andb_prop in H as [H H4]. apply andb_prop in H as [H H3].
  apply andb_prop in H as [H1 H2]. auto.
Qed.

Lemma table_ok_cons e l :
  table_ok (e :: l) = true ->
  entry_ok e = true /\
  (forall e', In e' l -> entries_apart e e' = true) /\
  table_ok l = true.
Proof.
  simpl. intros H. apply andb_prop in H as [H H3].
  apply andb_prop in H as [H1 H2]. repeat split; try assumption.
  intros e' Hin. rewrite forallb_forall in H2. apply H2, Hin.
Qed.

Lemma table_ok_intro e l :
  entry_ok e = true ->
  (forall e', In e' l -> entries_apart e e' = true) ->
  table_ok l = true ->
  table_ok (e :: l) = true.
Proof.
  intros H1 H2 H3. simpl. rewrite H1, H3.
  rewrite (proj2 (forallb_forall _ _) H2). reflexivity.
Qed.

Lemma table_ok_In l e : table_ok l = true -> In e l -> entry_ok e = true.
Proof.
  induction l as [|a l IH]; intros Hok Hin; [contradiction|].
  apply table_ok_cons in Hok as (Ha & _ & Hl).
  destruct Hin as [->|Hin]; auto.
Qed.

Lemma table_ok_app l1 l2 :
  table_ok (l1 ++ l2) = true ->
  table_ok l1 = true /\ table_ok l2 = true /\
  forall e1 e2, In e1 l1 -> In e2 l2 -> entries_apart e1 e2 = true.
Proof.
  induction l1 as [|a l1 IH]; simpl app; intros Hok.
  - repeat split; [assumption|]. intros e1 e2 [].
  - apply table_ok_cons in Hok as (Ha & Hall & Hrest).
    destruct (IH Hrest) as (H1 & H2 & H12).
    repeat split; [|assumption|].
    + apply table_ok_intro; [assumption| |assumption].
      intros e' Hin. apply Hall, in_or_app. left. assumption.
    + intros e1 e2 [<-|Hin1] Hin2.
      * apply Hall, in_or_app. right. assumption.
      * apply H12; assumption.
Qed.

(** The condition does not depend on the order of the entries. *)
Lemma table_ok_perm l l' :
  Permutation l l' -> table_ok l = true -> table_ok l' = true.
Proof.
  induction 1 as [|a l l' Hp IH|a b l|l l' l'' Hp1 IH1 Hp2 IH2]; intros Hok.
  - reflexivity.
  - apply table_ok_cons in Hok as (Ha & Hall & Hl).
    apply table_ok_intro; auto.
    intros e' Hin. apply Hall. eapply Permutation_in; [symmetry|]; eassumption.
  - apply table_ok_cons in Hok as (Hb & Hallb & Hl).
    apply table_ok_cons in Hl as (Ha & Halla & Hl).
    apply table_ok_intro; [assumption| |].
    + intros e' [<-|Hin]; [|auto].
      rewrite entries_apart_sym. apply Hallb. left. reflexivity.
    + apply table_ok_intro; [assumption| |assumption].
      intros e' Hin. apply Hallb. right. assumption.
  - auto.
Qed.

Lemma count_of_cons f e l :
  count_of f (e :: l) = (if f e then 1 else 0) + count_of f l.
Proof.
  unfold count_of. simpl. destruct (f e); simpl length; lia.
Qed.

Lemma count_of_perm f l l' : Permutation l l' -> count_of f l = count_of f l'.
Proof.
  induction 1 as [|a l l' Hp IH|a b l|l l' l'' Hp1 IH1 Hp2 IH2].
  - reflexivity.
  - rewrite !count_of_cons, IH. reflexivity.
  - rewrite !count_of_cons. lia.
  - congruence.
Qed.

Lemma count_of_nonneg f l : 0 <= count_of f l.
Proof. unfold count_of. lia. Qed.

End tables.

(** ** A run of iterations *)

Section runs.

Variable n0 : node.

Lemma visit_all_cons e l c w :
  visit_all (e :: l) c w =
  match visit e c w with
  | Return c1 w1 => visit_all l c1 w1
  | Raise x w1 => Raise x w1
  end.
Proof. reflexivity. Qed.

Lemma visit_all_app l1 : forall l2 c w,
  visit_all (l1 ++ l2) c w =
  match visit_all l1 c w with
  | Return c1 w1 => visit_all l2 c1 w1
  | Raise x w1 => Raise x w1
  end.
Proof.
  induction l1 as [|e l1 IH]; intros l2 c w; [reflexivity|].
  simpl app. rewrite !visit_all_cons.
  destruct (visit e c w) as [c1 w1|x w1]; [apply IH|reflexivity].
Qed.

(** The two tests of an iteration see the tree only at the two paths of
    its entry. *)
Lemma same_tests e n :
  entry_ok e = true ->
  FS.lookup (src_of e) n = FS.lookup (src_of e) n0 ->
  FS.lookup (dst_of e) n = FS.lookup (dst_of e) n0 ->
  at_root n e = at_root n0 e /\ at_target n e = at_target n0 e.
Proof.
  intros Hok Hs Hd.
  rewrite !at_root_lookup, !at_target_lookup, Hs, Hd by assumption.
  split; reflexivity.
Qed.

Lemma untouched_tail n e l : untouched n0 n (e :: l) -> untouched n0 n l.
Proof. intros H e' Hin. apply H. right. assumption. Qed.

(** What a run that returns has done, from a tree where its entries
    are still as at the start. *)
Lemma visit_all_return l : forall c w c' w',
  table_ok l = true ->
  untouched n0 (fs w) l ->
  visit_all l c w = Return c' w' ->
  c' = (fst c + count_of (duplicated n0) l,
        snd c + count_of (misplaced n0) l) /\
  stdout w' = (stdout w ++ flat_map (action_lines n0) l)%list /\
  (forall e, In e l -> settled n0 (fs w') e) /\
  (forall q, clear_of q l -> FS.lookup q (fs w') = FS.lookup q (fs w)).
Proof.
  induction l as [|e l IH]; intros c w c' w' Hok Hun Hrun.
  - injection Hrun as <- <-. unfold count_of. simpl.
    rewrite app_nil_r. split; [|split; [|split]].
    + destruct c; simpl; f_equal; lia.
    + reflexivity.
    + intros e [].
    + reflexivity.
  - rewrite visit_all_cons in Hrun.
    destruct (visit e c w) as [c1 w1|x w1] eqn:Hv; [|discriminate].
    apply table_ok_cons in Hok as (He & Hall & Hl).
    destruct (Hun e (or_introl eq_refl)) as [Hs Hd].
    destruct (same_tests e (fs w) He Hs Hd) as [Hr Ht].
    destruct (visit_return _ _ _ _ _ He Hv)
      as (Hc1 & Hout1 & Hgone & Hthere & Hframe & _).
    assert (Hun1 : untouched n0 (fs w1) l).
    { intros e' Hin. destruct (Hun e' (or_intror Hin)) as [Hs' Hd'].
      apply Hall, entries_apart_elim in Hin as (A1 & A2 & A3 & A4).
      rewrite apart_sym in A1, A2, A3, A4.
      rewrite !Hframe by assumption. split; assumption. }
    destruct (IH _ _ _ _ Hl Hun1 Hrun) as (Hc' & Hout' & Hset & Hfr).
    split; [|split; [|split]].
    + rewrite Hc', Hc1, !count_of_cons. unfold duplicated, misplaced.
      rewrite Hr, Ht. cbn [fst snd]. f_equal; lia.
    + rewrite Hout', Hout1. unfold action_lines. rewrite Hr, Ht.
      cbn [flat_map]. rewrite <- app_assoc. reflexivity.
    + intros a [<-|Hin]; [|apply Hset, Hin].
      assert (Hcl : clear_of (src_of e) l /\ clear_of (dst_of e) l).
      { split; intros e' Hin; apply Hall, entries_apart_elim in Hin; tauto. }
      destruct Hcl as [Hcs Hcd]. split.
      * rewrite (Hfr _ Hcs). assumption.
      * rewrite (Hfr _ Hcd), Hthere, Hs, Hd. reflexivity.
    + intros q Hq. rewrite Hfr by (intros e' Hin; apply Hq; right; exact Hin).
      destruct (Hq e (or_introl eq_refl)). apply Hframe; assumption.
Qed.

(** Every run is a run of a prefix of its entries that returns,
    followed, when the run raises, by the iteration that raises. *)
Lemma visit_all_trace l : forall c w,
  exists pre post c0 w0,
    l = (pre ++ post)%list /\
    visit_all pre c w = Return c0 w0 /\
    match visit_all l c w with
    | Return c' w' => post = [] /\ c' = c0 /\ w' = w0
    | Raise x w' =>
        exists e post', post = e :: post' /\ visit e c0 w0 = Raise x w'
    end.
Proof.
  induction l as [|e l IH]; intros c w.
  - exists [], [], c, w. repeat split.
  - rewrite visit_all_cons.
    destruct (visit e c w) as [c1 w1|x w1] eqn:Hv.
    + destruct (IH c1 w1) as (pre & post & c0 & w0 & -> & Hpre & Hrest).
      exists (e :: pre), post, c0, w0. repeat split.
      * rewrite visit_all_cons, Hv. exact Hpre.
      * exact Hrest.
    + exists [], (e :: l), c, w. repeat split.
      exists e, l. split; [reflexivity|exact Hv].
Qed.

(** The iteration of one entry inside a run that returns. *)
Lemma visit_all_at pre e post c w c' w' :
  visit_all (pre ++ e :: post) c w = Return c' w' ->
  exists c0 w0 c1 w1,
    visit_all pre c w = Return c0 w0 /\
    visit e c0 w0 = Return c1 w1 /\
    visit_all post c1 w1 = Return c' w'.
Proof.
  rewrite visit_all_app.
  destruct (visit_all pre c w) as [c0 w0|x w0]; [|discriminate].
  rewrite visit_all_cons.
  destruct (visit e c0 w0) as [c1 w1|x w1] eqn:Hv; [|discriminate].
  intros Hpost. exists c0, w0, c1, w1. auto.
Qed.

End runs.

(** An entry not yet visited is as at the start. *)
Lemma before_visit pre rest c w c0 w0 :
  table_ok (pre ++ rest) = true ->
  visit_all pre c w = Return c0 w0 ->
  untouched (fs w) (fs w0) rest.
Proof.
  intros Hok Hpre e' Hin.
  apply table_ok_app in Hok as (Hok1 & Hok2 & Hcross).
  assert (Hun : untouched (fs w) (fs w) pre) by (intros a _; split; reflexivity).
  destruct (visit_all_return (fs w) pre c w c0 w0 Hok1 Hun Hpre)
    as (_ & _ & _ & Hframe).
  split; apply Hframe; intros a Ha; specialize (Hcross a e' Ha Hin);
    rewrite entries_apart_sym in Hcross;
    apply entries_apart_elim in Hcross; tauto.
Qed.

(** ** The whole script *)

Section script.

Lemma visit_all_map target_dir files : forall c w,
  visit_all (List.map (pair target_dir) files) c w =
  for_each (cleanup_body target_dir) files c w.
Proof.
  induction files as [|f files IH]; intros c w; [reflexivity|].
  simpl List.map. rewrite visit_all_cons. unfold visit. cbn [fst snd].
  cbn [for_each]. unfold bind.
  destruct (cleanup_body target_dir f c w); [apply IH|reflexivity].
Qed.

(** The two nested loops visit the entries of the table in order. *)
Lemma cleanup_loops_entries table : forall c w,
  cleanup_loops table c w = visit_all (entries table) c w.
Proof.
  induction table as [|[target_dir files] table IH]; intros c w;
    [reflexivity|].
  unfold entries. cbn [flat_map]. fold (entries table).
  rewrite visit_all_app, visit_all_map.
  unfold cleanup_loops. cbn [for_each]. unfold bind.
  destruct (for_each (cleanup_body target_dir) files c w); [|reflexivity].
  apply IH.
Qed.

Lemma cleanup_count_entries table w :
  cleanup_count table w = visit_all (entries table) (0, 0) w.
Proof. apply cleanup_loops_entries. Qed.

(** Line 5 reads the filesystem and changes nothing. *)
Lemma comprehension_isfile names : forall w,
  comprehension os_path_isfile names w =
  Return (List.filter (fun x => OS.path_isfile x (fs w)) names) w.
Proof.
  induction names as [|x names IH]; intros w; [reflexivity|].
  cbn [comprehension]. unfold bind, os_path_isfile at 1, lift_read.
  rewrite IH. reflexivity.
Qed.

Lemma list_root_files_world w root_files w1 :
  list_root_files w = Return root_files w1 -> w1 = w.
Proof.
  unfold list_root_files, bind, os_listdir, lift_call.
  destruct (OS.listdir "." (fs w)); [discriminate|].
  rewrite comprehension_isfile. intros [= _ <-]. reflexivity.
Qed.

(** A call of the script that returns: the loops returned, the last
    line was printed after them, and the value is [None]. *)
Lemma cleanup_with_return table w v w' :
  cleanup_with table w = Return v w' ->
  exists counts w1,
    cleanup_count table w = Return counts w1 /\
    v = PyNone /\
    fs w' = fs w1 /\
    stdout w' =
      (stdout w1 ++ [finished_line (fst counts) (snd counts)])%list.
Proof.
  unfold cleanup_with, bind.
  destruct (list_root_files w) as [root_files w0|x w0] eqn:Hls; [|discriminate].
  apply list_root_files_world in Hls as ->.
  unfold cleanup_from, bind.
  destruct (cleanup_count table w) as [counts w1|x w1]; [|discriminate].
  unfold print, ret. intros [= <- <-].
  exists counts, w1. repeat split.
Qed.

(** The table of the script keeps all its paths apart. *)
Lemma mapping_ok : table_ok (entries mapping) = true.
Proof. vm_compute. reflexivity. Qed.

End script.

(** ** Runs of the script's table *)

Section table_runs.

Variable l : list (string * string).
Hypothesis l_ok : table_ok l = true.

Lemma untouched_refl n (k : list (string * string)) : untouched n n k.
Proof. intros e _. split; reflexivity. Qed.

(** The counters and the tree when the loops are left. *)
Lemma run_result w c1 w1 :
  visit_all l (0, 0) w = Return c1 w1 ->
  c1 = (count_of (duplicated (fs w)) l, count_of (misplaced (fs w)) l) /\
  stdout w1 = (stdout w ++ flat_map (action_lines (fs w)) l)%list /\
  forall e, In e l -> settled (fs w) (fs w1) e.
Proof.
  intros Hrun.
  destruct (visit_all_return (fs w) l (0, 0) w c1 w1 l_ok
              (untouched_refl _ _) Hrun) as (Hc & Hout & Hset & _).
  cbn [fst snd] in Hc. rewrite !Z.add_0_l in Hc. auto.
Qed.

(** The iteration that visits a given entry, inside a run that
    returns: it starts from counters [c0] and adds one to the counter
    of its branch. *)
Lemma run_iteration w c1 w1 e :
  In e l ->
  visit_all l (0, 0) w = Return c1 w1 ->
  exists pre post c0 w0 w0',
    l = (pre ++ e :: post)%list /\
    visit_all pre (0, 0) w = Return c0 w0 /\
    visit e c0 w0 =
      Return (fst c0 + (if duplicated (fs w) e then 1 else 0),
              snd c0 + (if misplaced (fs w) e then 1 else 0)) w0' /\
    (at_root (fs w) e = false -> w0' = w0).
Proof.
  intros Hin Hrun. destruct (in_split _ _ Hin) as (pre & post & Hl).
  pose proof l_ok as Hok. rewrite Hl in Hrun, Hok.
  destruct (visit_all_at _ _ _ _ _ _ _ Hrun)
    as (c0 & w0 & c' & w0' & Hpre & Hv & _).
  exists pre, post, c0, w0, w0'.
  destruct (before_visit _ _ _ _ _ _ Hok Hpre e (or_introl eq_refl))
    as [Hs Hd].
  assert (He : entry_ok e = true) by exact (table_ok_In l e l_ok Hin).
  destruct (same_tests (fs w) e (fs w0) He Hs Hd) as [Hr Ht].
  destruct (visit_return _ _ _ _ _ He Hv) as (Hc' & _ & _ & _ & _ & Hsame).
  unfold duplicated, misplaced in *. rewrite Hr, Ht in Hc'.
  rewrite Hr in Hsame. subst c'. auto.
Qed.

(** Whatever the outcome of the loops, an entry that was not at the
    root at the start is, at both its paths, as at the start. *)
Lemma run_skips w e :
  In e l ->
  at_root (fs w) e = false ->
  let w' := world_of (visit_all l (0, 0) w) in
  FS.lookup (src_of e) (fs w') = FS.lookup (src_of e) (fs w) /\
  FS.lookup (dst_of e) (fs w') = FS.lookup (dst_of e) (fs w).
Proof.
  intros Hin Hroot w'.
  assert (He : entry_ok e = true) by exact (table_ok_In l e l_ok Hin).
  rewrite at_root_lookup in Hroot by assumption.
  destruct (FS.lookup (src_of e) (fs w)) eqn:Hsrc; [discriminate|].
  destruct (visit_all_trace l (0, 0) w)
    as (pre & post & c0 & w0 & Hl & Hpre & Hrest).
  assert (Hfs : fs w' = fs w0).
  { subst w'. destruct (visit_all l (0, 0) w) as [c' w1|x w1].
    - destruct Hrest as (_ & _ & ->). reflexivity.
    - destruct Hrest as (a & post' & _ & Hraise).
      apply visit_raise in Hraise. tauto. }
  rewrite Hfs. pose proof l_ok as Hok. rewrite Hl in Hok, Hin.
  apply in_app_or in Hin as [Hin|Hin].
  - apply table_ok_app in Hok as (Hok1 & _).
    destruct (visit_all_return (fs w) pre (0, 0) w c0 w0 Hok1
                (untouched_refl _ _) Hpre) as (_ & _ & Hset & _).
    destruct (Hset e Hin) as [Hs Hd]. rewrite Hs, Hd, Hsrc.
    split; [reflexivity|]. destruct (FS.lookup (dst_of e) (fs w)); reflexivity.
  - rewrite <- Hsrc. apply (before_visit _ _ _ _ _ _ Hok Hpre e Hin).
Qed.

End table_runs.

(** ** The claims about [cleanup] *)

Lemma settled_tests n0 n e :
  entry_ok e = true ->
  settled n0 n e ->
  at_root n e = false /\
  at_target n e = at_root n0 e || at_target n0 e.
Proof.
  intros He [Hs Hd].
  rewrite !at_root_lookup, !at_target_lookup, Hs, Hd by assumption.
  split; [reflexivity|].
  destruct (FS.lookup (dst_of e) n0), (FS.lookup (src_of e) n0); reflexivity.
Qed.

Lemma mapping_entry_ok target_dir filename :
  In (target_dir, filename) (entries mapping) ->
  entry_ok (target_dir, filename) = true.
Proof. apply table_ok_In, mapping_ok. Qed.

(** A call of [cleanup] that returns, seen as a run over the entries. *)
Lemma cleanup_return w v w' :
  cleanup w = Return v w' ->
  exists deleted_count moved_count w1,
    cleanup_count mapping w = Return (deleted_count, moved_count) w1 /\
    visit_all (entries mapping) (0, 0) w =
      Return (deleted_count, moved_count) w1 /\
    v = PyNone /\
    fs w' = fs w1 /\
    stdout w' =
      (stdout w1 ++ [finished_line deleted_count moved_count])%list.
Proof.
  intros H. apply cleanup_with_return in H
    as ([d m] & w1 & Hc & Hv & Hfs & Hout).
  exists d, m, w1. rewrite <- cleanup_count_entries. auto.
Qed.

Lemma listed_In table target_dir filename :
  listed table target_dir filename = true ->
  In (target_dir, filename) (entries table).
Proof.
  unfold listed. rewrite existsb_exists. intros ([t f] & Hin & H).
  apply andb_prop in H as [Ht Hf]. cbn [fst snd] in Ht, Hf.
  apply String.eqb_eq in Ht, Hf. subst. exact Hin.
Qed.

Ltac pick_entry := apply listed_In; vm_compute; reflexivity.

(** C1, as stated, fails: the claim does not ask for a run without
    errors.  In the sample [auth.ts] is listed, at the root and not at
    its target path; the call raises when it tries to move it into the
    absent [server/], and the file is then still at the root and not at
    the target path. *)
Lemma cleanup_may_leave_misplaced_file :
  In ("server/", "auth.ts") (entries mapping) /\
  OS.path_exists "auth.ts" (fs stray_world) = true /\
  OS.path_exists (Path.join "server/" "auth.ts") (fs stray_world) = false /\
  cleanup stray_world =
    Raise FileNotFoundError (world_of (cleanup stray_world)) /\
  OS.path_exists "auth.ts" (fs (world_of (cleanup stray_world))) = true /\
  OS.path_exists (Path.join "server/" "auth.ts")
                 (fs (world_of (cleanup stray_world))) = false.
Proof.
  split; [pick_entry|]. repeat split; vm_compute; reflexivity.
Qed.

(** C1, amended: a listed filename that is at the root and not at its
    target path when [cleanup()] is called is, after a call that returns
    (an error-free run), at the target path only: the root no longer has
    it, the target path holds the very entry the root held, the
    iteration that visits it adds exactly one to [moved_count] and
    nothing to [deleted_count], and [moved_count] ends as the number of
    such filenames. *)
Theorem cleanup_moves_misplaced_file w v w' target_dir filename :
  In (target_dir, filename) (entries mapping) ->
  OS.path_exists filename (fs w) = true ->
  OS.path_exists (Path.join target_dir filename) (fs w) = false ->
  cleanup w = Return v w' ->
  OS.path_exists filename (fs w') = false /\
  OS.path_exists (Path.join target_dir filename) (fs w') = true /\
  FS.lookup (Path.components (Path.join target_dir filename)) (fs w') =
    FS.lookup (Path.components filename) (fs w) /\
  (exists pre post c0 w0 w0',
     entries mapping = (pre ++ (target_dir, filename) :: post)%list /\
     visit_all pre (0, 0) w = Return c0 w0 /\
     cleanup_body target_dir filename c0 w0 =
       Return (fst c0, snd c0 + 1) w0') /\
  (exists deleted_count moved_count w1,
     cleanup_count mapping w = Return (deleted_count, moved_count) w1 /\
     moved_count = count_of (misplaced (fs w)) (entries mapping)).
Proof.
  intros Hin Hroot Htgt Hrun. set (e := (target_dir, filename)) in *.
  pose proof (mapping_entry_ok _ _ Hin) as He. fold e in He.
  change (at_root (fs w) e = true) in Hroot.
  change (at_target (fs w) e = false) in Htgt.
  destruct (cleanup_return _ _ _ Hrun)
    as (d & m & w1 & Hcount & Hall & _ & Hfs & _).
  destruct (run_result _ mapping_ok _ _ _ Hall) as (Hc & _ & Hset).
  specialize (Hset e Hin).
  destruct (settled_tests _ _ _ He Hset) as [Hr' Ht'].
  rewrite Hroot in Ht'. rewrite <- Hfs in Hr', Ht', Hset.
  split; [exact Hr'|]. split; [exact Ht'|]. split; [|split].
  - destruct Hset as [_ Hd]. rewrite at_target_lookup in Htgt by assumption.
    change (FS.lookup (dst_of e) (fs w') = FS.lookup (src_of e) (fs w)).
    rewrite Hd. destruct (FS.lookup (dst_of e) (fs w)); [discriminate|].
    reflexivity.
  - destruct (run_iteration _ mapping_ok _ _ _ e Hin Hall)
      as (pre & post & c0 & w0 & w0' & Hl & Hpre & Hv & _).
    exists pre, post, c0, w0, w0'. split; [exact Hl|]. split; [exact Hpre|].
    unfold duplicated, misplaced in Hv. rewrite Hroot, Htgt in Hv.
    cbn [andb negb] in Hv. rewrite Z.add_0_r in Hv. exact Hv.
  - exists d, m, w1. split; [exact Hcount|]. congruence.
Qed.

Lemma cleanup_moves_misplaced_file_witness :
  let w' := world_of (cleanup sample_world) in
  OS.path_exists "button.tsx" (fs w') = false /\
  OS.path_exists (Path.join "client/src/components/ui/" "button.tsx") (fs w')
    = true /\
  FS.lookup (Path.components
               (Path.join "client/src/components/ui/" "button.tsx")) (fs w') =
    FS.lookup (Path.components "button.tsx") (fs sample_world) /\
  (exists pre post c0 w0 w0',
     entries mapping =
       (pre ++ ("client/src/components/ui/", "button.tsx") :: post)%list /\
     visit_all pre (0, 0) sample_world = Return c0 w0 /\
     cleanup_body "client/src/components/ui/" "button.tsx" c0 w0 =
       Return (fst c0, snd c0 + 1) w0') /\
  (exists deleted_count moved_count w1,
     cleanup_count mapping sample_world =
       Return (deleted_count, moved_count) w1 /\
     moved_count = count_of (misplaced (fs sample_world)) (entries mapping)).
Proof.
  apply (cleanup_moves_misplaced_file sample_world PyNone
           (world_of (cleanup sample_world))
           "client/src/components/ui/" "button.tsx").
  - pick_entry.
  - vm_compute. reflexivity.
  - vm_compute. reflexivity.
  - vm_compute. reflexivity.
Defined.

(** C2, as stated, fails: the claim does not ask for a run without
    errors.  In the sample [auth.ts] is listed, at the root and at its
    target path; the call raises earlier in the table, at the move of
    [button.tsx] into the absent [client/src/components/ui/], and the
    root copy of [auth.ts] is then still there. *)
Lemma cleanup_may_leave_root_duplicate :
  In ("server/", "auth.ts") (entries mapping) /\
  OS.path_exists "auth.ts" (fs halted_world) = true /\
  OS.path_exists (Path.join "server/" "auth.ts") (fs halted_world) = true /\
  cleanup halted_world =
    Raise FileNotFoundError (world_of (cleanup halted_world)) /\
  OS.path_exists "auth.ts" (fs (world_of (cleanup halted_world))) = true.
Proof.
  split; [pick_entry|]. repeat split; vm_compute; reflexivity.
Qed.

(** C2, amended: a listed filename that is both at the root and at its
    target path when [cleanup()] is called has, after a call that
    returns (an error-free run), lost its root copy; the target path
    holds exactly what it held; the iteration that visits it adds
    exactly one to [deleted_count] and nothing to [moved_count], and
    [deleted_count] ends as the number of such filenames. *)
Theorem cleanup_deletes_root_duplicate w v w' target_dir filename :
  In (target_dir, filename) (entries mapping) ->
  OS.path_exists filename (fs w) = true ->
  OS.path_exists (Path.join target_dir filename) (fs w) = true ->
  cleanup w = Return v w' ->
  OS.path_exists filename (fs w') = false /\
  FS.lookup (Path.components (Path.join target_dir filename)) (fs w') =
    FS.lookup (Path.components (Path.join target_dir filename)) (fs w) /\
  (exists pre post c0 w0 w0',
     entries mapping = (pre ++ (target_dir, filename) :: post)%list /\
     visit_all pre (0, 0) w = Return c0 w0 /\
     cleanup_body target_dir filename c0 w0 =
       Return (fst c0 + 1, snd c0) w0') /\
  (exists deleted_count moved_count w1,
     cleanup_count mapping w = Return (deleted_count, moved_count) w1 /\
     deleted_count = count_of (duplicated (fs w)) (entries mapping)).
Proof.
  intros Hin Hroot Htgt Hrun. set (e := (target_dir, filename)) in *.
  pose proof (mapping_entry_ok _ _ Hin) as He. fold e in He.
  change (at_root (fs w) e = true) in Hroot.
  change (at_target (fs w) e = true) in Htgt.
  destruct (cleanup_return _ _ _ Hrun)
    as (d & m & w1 & Hcount & Hall & _ & Hfs & _).
  destruct (run_result _ mapping_ok _ _ _ Hall) as (Hc & _ & Hset).
  specialize (Hset e Hin).
  destruct (settled_tests _ _ _ He Hset) as [Hr' _].
  rewrite <- Hfs in Hr', Hset.
  split; [exact Hr'|]. split; [|split].
  - destruct Hset as [_ Hd]. rewrite at_target_lookup in Htgt by assumption.
    change (FS.lookup (dst_of e) (fs w') = FS.lookup (dst_of e) (fs w)).
    rewrite Hd. destruct (FS.lookup (dst_of e) (fs w)); [|discriminate].
    reflexivity.
  - destruct (run_iteration _ mapping_ok _ _ _ e Hin Hall)
      as (pre & post & c0 & w0 & w0' & Hl & Hpre & Hv & _).
    exists pre, post, c0, w0, w0'. split; [exact Hl|]. split; [exact Hpre|].
    unfold duplicated, misplaced in Hv. rewrite Hroot, Htgt in Hv.
    cbn [andb negb] in Hv. rewrite Z.add_0_r in Hv. exact Hv.
  - exists d, m, w1. split; [exact Hcount|]. congruence.
Qed.

Lemma cleanup_deletes_root_duplicate_witness :
  let w' := world_of (cleanup sample_world) in
  OS.path_exists "auth.ts" (fs w') = false /\
  FS.lookup (Path.components (Path.join "server/" "auth.ts")) (fs w') =
    FS.lookup (Path.components (Path.join "server/" "auth.ts"))
              (fs sample_world) /\
  (exists pre post c0 w0 w0',
     entries mapping = (pre ++ ("server/", "auth.ts") :: post)%list /\
     visit_all pre (0, 0) sample_world = Return c0 w0 /\
     cleanup_body "server/" "auth.ts" c0 w0 =
       Return (fst c0 + 1, snd c0) w0') /\
  (exists deleted_count moved_count w1,
     cleanup_count mapping sample_world =
       Return (deleted_count, moved_count) w1 /\
     deleted_count =
       count_of (duplicated (fs sample_world)) (entries mapping)).
Proof.
  apply (cleanup_deletes_root_duplicate sample_world PyNone
           (world_of (cleanup sample_world)) "server/" "auth.ts").
  - pick_entry.
  - vm_compute. reflexivity.
  - vm_compute. reflexivity.
  - vm_compute. reflexivity.
Defined.

(** C3, as stated, fails: in an empty working directory the call
    returns without an error, and the listed [index.html] is then not at
    its target path [client/index.html]. *)
Lemma cleanup_does_not_create_files :
  cleanup bare_world =
    Return PyNone
      {| fs := fs bare_world;
         stdout := ["Cleanup finished. Deleted: 0, Moved: 0"] |} /\
  In ("client/", "index.html") (entries mapping) /\
  OS.path_exists (Path.join "client/" "index.html") (fs bare_world) = false.
Proof.
  split; [vm_compute; reflexivity|]. split; [pick_entry|].
  vm_compute. reflexivity.
Qed.

(** C3, amended: after a call of [cleanup()] that returns, no listed
    filename is at the root, and a listed filename is at its target path
    exactly when it was at the root or at its target path when the
    call started. *)
Theorem cleanup_clears_root w v w' target_dir filename :
  In (target_dir, filename) (entries mapping) ->
  cleanup w = Return v w' ->
  OS.path_exists filename (fs w') = false /\
  OS.path_exists (Path.join target_dir filename) (fs w') =
    OS.path_exists filename (fs w) ||
    OS.path_exists (Path.join target_dir filename) (fs w).
Proof.
  intros Hin Hrun. set (e := (target_dir, filename)) in *.
  pose proof (mapping_entry_ok _ _ Hin) as He. fold e in He.
  destruct (cleanup_return _ _ _ Hrun)
    as (d & m & w1 & _ & Hall & _ & Hfs & _).
  destruct (run_result _ mapping_ok _ _ _ Hall) as (_ & _ & Hset).
  rewrite Hfs. exact (settled_tests _ _ _ He (Hset e Hin)).
Qed.

Lemma cleanup_clears_root_witness :
  let w' := world_of (cleanup sample_world) in
  OS.path_exists "accountSecurity.ts" (fs w') = false /\
  OS.path_exists (Path.join "server/" "accountSecurity.ts") (fs w') =
    OS.path_exists "accountSecurity.ts" (fs sample_world) ||
    OS.path_exists (Path.join "server/" "accountSecurity.ts")
                   (fs sample_world).
Proof.
  apply (cleanup_clears_root sample_world PyNone
           (world_of (cleanup sample_world)) "server/" "accountSecurity.ts").
  - pick_entry.
  - vm_compute. reflexivity.
Defined.

Lemma count_of_tests n l :
  count_of (duplicated n) l + count_of (misplaced n) l = count_of (at_root n) l.
Proof.
  induction l as [|e l IH]; [reflexivity|].
  rewrite !count_of_cons. unfold duplicated, misplaced in *.
  destruct (at_root n e), (at_target n e); cbn [andb negb]; lia.
Qed.

Lemma count_of_at_root n l :
  count_of (at_root n) l =
  Z.of_nat (length (List.filter (fun f => OS.path_exists f n) (List.map snd l))).
Proof.
  unfold count_of. f_equal. induction l as [|e l IH]; [reflexivity|].
  cbn [List.filter List.map]. unfold at_root at 1.
  destruct (OS.path_exists (snd e) n); cbn [length]; rewrite IH; reflexivity.
Qed.

(** C4: whatever the tree, after a call that returns, [deleted_count +
    moved_count] is the number of listed filenames that were at the root
    when the call started; the same number results when the table is
    walked in any other order. *)
Theorem cleanup_counts_root_files table w v w' :
  Permutation (entries table) (entries mapping) ->
  cleanup_with table w = Return v w' ->
  exists deleted_count moved_count w1,
    cleanup_count table w = Return (deleted_count, moved_count) w1 /\
    deleted_count + moved_count =
      Z.of_nat (length (List.filter (fun f => OS.path_exists f (fs w))
                                    (filenames mapping))).
Proof.
  intros Hperm Hrun.
  apply cleanup_with_return in Hrun as ([d m] & w1 & Hcount & _).
  exists d, m, w1. split; [exact Hcount|].
  assert (Hok : table_ok (entries table) = true).
  { apply (table_ok_perm (entries mapping)); [symmetry; exact Hperm|].
    exact mapping_ok. }
  rewrite cleanup_count_entries in Hcount.
  destruct (run_result _ Hok _ _ _ Hcount) as (Hc & _).
  injection Hc as -> ->.
  rewrite count_of_tests, (count_of_perm _ _ _ Hperm).
  apply count_of_at_root.
Qed.

Lemma cleanup_counts_root_files_witness :
  exists deleted_count moved_count w1,
    cleanup_count (rev mapping) sample_world =
      Return (deleted_count, moved_count) w1 /\
    deleted_count + moved_count =
      Z.of_nat (length (List.filter
                          (fun f => OS.path_exists f (fs sample_world))
                          (filenames mapping))).
Proof.
  apply (cleanup_counts_root_files (rev mapping) sample_world PyNone
           (world_of (cleanup_with (rev mapping) sample_world))).
  - apply Permutation_flat_map, Permutation_sym, Permutation_rev.
  - vm_compute. reflexivity.
Defined.

(** The order really differs in the sample: the reversed table deletes
    [auth.ts] before it moves [button.tsx], and counts the same. *)
Example cleanup_reversed_sample :
  stdout (world_of (cleanup_with (rev mapping) sample_world)) =
    ["Removing duplicate: auth.ts (already in server/)";
     "Moving button.tsx to client/src/components/ui/";
     "Cleanup finished. Deleted: 1, Moved: 1"] /\
  stdout (world_of (cleanup sample_world)) =
    ["Moving button.tsx to client/src/components/ui/";
     "Removing duplicate: auth.ts (already in server/)";
     "Cleanup finished. Deleted: 1, Moved: 1"].
Proof. split; vm_compute; reflexivity. Qed.

(** ** The working directory stays as it is *)

Lemma update_listable p f n n' :
  FS.update p f n = Some n' -> listable n' = listable n.
Proof.
  destruct p as [|c [|c2 p]]; [discriminate| |];
    destruct n as [d|wd es]; try discriminate.
  - rewrite update_last. intros [= <-]. reflexivity.
  - rewrite update_below. destruct (es !! c); [|discriminate].
    destruct (FS.update _ _ _); [|discriminate]. intros [= <-]. reflexivity.
Qed.

Lemma remove_listable path n n' :
  OS.remove path n = inr n' -> listable n' = listable n.
Proof.
  unfold OS.remove. destruct (String.eqb path ""); [discriminate|].
  destruct (FS.lookup _ n) as [[d|wd es]|]; try discriminate;
    destruct (negb _); try discriminate.
  destruct (FS.update _ _ n) eqn:Hup; [|discriminate].
  intros [= <-]. eapply update_listable, Hup.
Qed.

Lemma rename_listable src dst n n' :
  OS.rename src dst n = inr n' -> listable n' = listable n.
Proof.
  unfold OS.rename. destruct (_ || _); [discriminate|].
  destruct (FS.lookup (Path.components src) n); [|discriminate].
  destruct (FS.lookup (Path.parent _) n) as [[d|wd es]|]; try discriminate.
  destruct (OS.same_path _ _); [intros [= <-]; reflexivity|].
  destruct (Path.is_prefix _ _); [discriminate|].
  destruct (negb (_ && _)); [discriminate|].
  destruct (negb (OS.movable _ _ _)); [discriminate|].
  destruct (OS.replaceable _ _); [discriminate|].
  destruct (FS.update _ _ n) as [n1|] eqn:Hup1; [|discriminate].
  destruct (FS.update _ _ n1) eqn:Hup2; [|discriminate].
  intros [= <-]. rewrite (update_listable _ _ _ _ Hup2).
  exact (update_listable _ _ _ _ Hup1).
Qed.

Lemma visit_listable e c w c' w' :
  visit e c w = Return c' w' -> listable (fs w') = listable (fs w).
Proof.
  unfold visit. destruct c as [d m]. rewrite cleanup_body_unfold.
  destruct (OS.path_exists (snd e) (fs w)); [|intros [= _ <-]; reflexivity].
  destruct (OS.path_exists _ (fs w)).
  - destruct (OS.remove _ _) eqn:Hrm; [discriminate|].
    intros [= _ <-]. eapply remove_listable, Hrm.
  - destruct (OS.rename _ _ _) eqn:Hmv; [discriminate|].
    intros [= _ <-]. eapply rename_listable, Hmv.
Qed.

Lemma visit_all_listable l : forall c w c' w',
  visit_all l c w = Return c' w' -> listable (fs w') = listable (fs w).
Proof.
  induction l as [|e l IH]; intros c w c' w' Hrun.
  - injection Hrun as _ <-. reflexivity.
  - rewrite visit_all_cons in Hrun.
    destruct (visit e c w) as [c1 w1|x w1] eqn:Hv; [|discriminate].
    rewrite (IH _ _ _ _ Hrun). eapply visit_listable, Hv.
Qed.

Lemma listdir_here n :
  OS.listdir "." n =
  match n with
  | Dir m es =>
      if readable m then inr (List.map fst (map_to_list es))
      else inl PermissionError
  | File _ => inl NotADirectoryError
  end.
Proof. destruct n; reflexivity. Qed.

(** Line 5 returns exactly when the working directory can be listed,
    and leaves the world as it is when it raises, too. *)
Lemma list_root_files_listable w :
  listable (fs w) = true <->
  exists root_files, list_root_files w = Return root_files w.
Proof.
  unfold list_root_files, bind, os_listdir, lift_call.
  rewrite listdir_here. split.
  - destruct (fs w) as [d|[rd wd] es]; [discriminate|]. cbn [listable readable].
    intros ->. rewrite comprehension_isfile. eexists. reflexivity.
  - destruct (fs w) as [d|[[|] wd] es]; [| |]; cbn [readable].
    + intros [rf H]. discriminate.
    + reflexivity.
    + intros [rf H]. discriminate.
Qed.

Lemma list_root_files_raise w x w1 :
  list_root_files w = Raise x w1 -> w1 = w.
Proof.
  unfold list_root_files, bind, os_listdir, lift_call.
  destruct (OS.listdir "." (fs w)).
  - intros [= _ <-]. reflexivity.
  - rewrite comprehension_isfile. discriminate.
Qed.

(** A run over entries none of which is at the root does nothing. *)
Lemma visit_all_nothing l : forall c w,
  (forall e, In e l -> at_root (fs w) e = false) ->
  visit_all l c w = Return c w.
Proof.
  induction l as [|e l IH]; intros c w Hnone; [reflexivity|].
  rewrite visit_all_cons. unfold visit at 1. destruct c as [d m].
  rewrite cleanup_body_unfold.
  pose proof (Hnone e (or_introl eq_refl)) as He. unfold at_root in He.
  rewrite He. apply IH. intros e' Hin. apply Hnone. right. exact Hin.
Qed.

(** C5: when a call of [cleanup()] has returned, a second call changes
    nothing in the filesystem, leaves both counters at zero and prints
    only the closing line. *)
Theorem cleanup_twice_is_noop w v w' :
  cleanup w = Return v w' ->
  cleanup_count mapping w' = Return (0, 0) w' /\
  cleanup w' =
    Return PyNone
      {| fs := fs w';
         stdout := stdout w' ++ ["Cleanup finished. Deleted: 0, Moved: 0"] |}.
Proof.
  intros Hrun.
  assert (Hdir : listable (fs w) = true).
  { apply list_root_files_listable. unfold cleanup, cleanup_with, bind in Hrun.
    destruct (list_root_files w) as [rf w0|x w0] eqn:Hls; [|discriminate].
    pose proof (list_root_files_world _ _ _ Hls) as ->. eauto. }
  destruct (cleanup_return _ _ _ Hrun)
    as (d & m & w1 & _ & Hall & _ & Hfs & _).
  destruct (run_result _ mapping_ok _ _ _ Hall) as (_ & _ & Hset).
  assert (Hnone : forall e, In e (entries mapping) -> at_root (fs w') e = false).
  { intros e Hin. rewrite Hfs.
    apply (settled_tests (fs w) (fs w1) e);
      [exact (table_ok_In _ _ mapping_ok Hin)|exact (Hset e Hin)]. }
  assert (Hcount : cleanup_count mapping w' = Return (0, 0) w').
  { rewrite cleanup_count_entries. apply visit_all_nothing, Hnone. }
  split; [exact Hcount|].
  assert (Hdir' : listable (fs w') = true).
  { rewrite Hfs, (visit_all_listable _ _ _ _ _ Hall). exact Hdir. }
  apply list_root_files_listable in Hdir' as [rf Hls].
  unfold cleanup, cleanup_with, bind. rewrite Hls.
  unfold cleanup_from, bind. rewrite Hcount. reflexivity.
Qed.

Lemma cleanup_twice_is_noop_witness :
  let w' := world_of (cleanup sample_world) in
  cleanup_count mapping w' = Return (0, 0) w' /\
  cleanup w' =
    Return PyNone
      {| fs := fs w';
         stdout := stdout w' ++ ["Cleanup finished. Deleted: 0, Moved: 0"] |}.
Proof.
  apply (cleanup_twice_is_noop sample_world PyNone).
  vm_compute. reflexivity.
Defined.

(** ** Failing calls *)

Lemma cleanup_with_raise table w root_files x w' :
  list_root_files w = Return root_files w ->
  cleanup_count table w = Raise x w' ->
  cleanup_with table w = Raise x w'.
Proof.
  intros Hls Hc. unfold cleanup_with, bind. rewrite Hls.
  unfold cleanup_from, bind. rewrite Hc. reflexivity.
Qed.

(** C6: when the [os.remove] or [os.rename] of an iteration fails, the
    call of [cleanup()] raises that very error; nothing runs after the
    failed operation (the tree is the one the iteration started in, the
    console has the line of the failed action as its last line and no
    closing line); and every listed filename further down the table is,
    at the root and at its target path, as when the call started. *)
Theorem cleanup_stops_at_failure
    w root_files pre target_dir filename post c0 w0 x :
  list_root_files w = Return root_files w ->
  entries mapping = (pre ++ (target_dir, filename) :: post)%list ->
  visit_all pre (0, 0) w = Return c0 w0 ->
  OS.path_exists filename (fs w0) = true ->
  (if OS.path_exists (Path.join target_dir filename) (fs w0)
   then OS.remove filename (fs w0)
   else OS.rename filename (Path.join target_dir filename) (fs w0)) = inl x ->
  (exists line,
     cleanup w = Raise x {| fs := fs w0; stdout := stdout w0 ++ [line] |}) /\
  (forall t g, In (t, g) post ->
     FS.lookup (Path.components g) (fs w0) =
       FS.lookup (Path.components g) (fs w) /\
     FS.lookup (Path.components (Path.join t g)) (fs w0) =
       FS.lookup (Path.components (Path.join t g)) (fs w)).
Proof.
  intros Hls Hl Hpre Hroot Hop. split.
  - assert (Hbody : exists line,
               cleanup_body target_dir filename c0 w0 =
               Raise x {| fs := fs w0; stdout := stdout w0 ++ [line] |}).
    { destruct c0 as [d m]. rewrite cleanup_body_unfold, Hroot.
      destruct (OS.path_exists (Path.join target_dir filename) (fs w0));
        rewrite Hop; eexists; reflexivity. }
    destruct Hbody as [line Hbody]. exists line.
    apply (cleanup_with_raise _ _ root_files); [exact Hls|].
    rewrite cleanup_count_entries, Hl, visit_all_app, Hpre, visit_all_cons.
    unfold visit. cbn [fst snd]. rewrite Hbody. reflexivity.
  - intros t g Hin. pose proof mapping_ok as Hok. rewrite Hl in Hok.
    apply (before_visit _ _ _ _ _ _ Hok Hpre (t, g)). right. exact Hin.
Qed.

Lemma cleanup_stops_at_failure_witness :
  let w0 := world_of (visit_all (firstn 58 (entries mapping)) (0, 0)
                                stray_world) in
  (exists line,
     cleanup stray_world =
     Raise FileNotFoundError
       {| fs := fs w0; stdout := stdout w0 ++ [line] |}) /\
  (forall t g, In (t, g) (skipn 59 (entries mapping)) ->
     FS.lookup (Path.components g) (fs w0) =
       FS.lookup (Path.components g) (fs stray_world) /\
     FS.lookup (Path.components (Path.join t g)) (fs w0) =
       FS.lookup (Path.components (Path.join t g)) (fs stray_world)).
Proof.
  apply (cleanup_stops_at_failure stray_world
           ["index.html"; "auth.ts"; "button.tsx"]
           (firstn 58 (entries mapping)) "server/" "auth.ts"
           (skipn 59 (entries mapping)) (0, 1)
           (world_of (visit_all (firstn 58 (entries mapping)) (0, 0)
                                stray_world))
           FileNotFoundError).
  - vm_compute. reflexivity.
  - vm_compute. reflexivity.
  - vm_compute. reflexivity.
  - vm_compute. reflexivity.
  - vm_compute. reflexivity.
Defined.

(** In the sample [button.tsx] has been moved when the move of
    [auth.ts] fails; the console ends with the line of the failed move,
    and [index.html], further down the table, is still at the root. *)
Example cleanup_stray_sample :
  exists n,
    cleanup stray_world =
      Raise FileNotFoundError
        {| fs := n;
           stdout := ["Moving button.tsx to client/src/components/ui/";
                      "Moving auth.ts to server/"] |} /\
    OS.path_exists "client/src/components/ui/button.tsx" n = true /\
    OS.path_exists "auth.ts" n = true /\
    OS.path_exists "index.html" n = true /\
    OS.path_exists "client/index.html" n = false.
Proof.
  exists (fs (world_of (cleanup stray_world))).
  repeat split; vm_compute; reflexivity.
Qed.

(** ** What the caller and the console get *)

Lemma action_lines_count n l :
  Z.of_nat (length (flat_map (action_lines n) l)) = count_of (at_root n) l.
Proof.
  induction l as [|e l IH]; [reflexivity|].
  rewrite count_of_cons, <- IH. cbn [flat_map]. rewrite length_app.
  unfold action_lines. destruct (at_root n e); cbn [length]; lia.
Qed.

(** C7, as stated, fails: on the sample tree the counters end as
    [(1, 1)], and the call returns [None], not that pair. *)
Lemma cleanup_returns_no_pair :
  cleanup_count mapping sample_world =
    Return (1, 1) (world_of (cleanup_count mapping sample_world)) /\
  cleanup sample_world = Return PyNone (world_of (cleanup sample_world)) /\
  PyNone <> PyTuple [PyInt 1; PyInt 1].
Proof.
  split; [vm_compute; reflexivity|]. split; [vm_compute; reflexivity|].
  discriminate.
Qed.

(** C7, amended: a call of [cleanup()] that returns gives [None] to its
    caller; the counters reach the outside only in the closing console
    line, which follows one line per action, as many lines as the two
    counters add up to. *)
Theorem cleanup_returns_none w v w' :
  cleanup w = Return v w' ->
  v = PyNone /\
  exists deleted_count moved_count w1,
    cleanup_count mapping w = Return (deleted_count, moved_count) w1 /\
    stdout w' =
      (stdout w ++ flat_map (action_lines (fs w)) (entries mapping) ++
       [finished_line deleted_count moved_count])%list /\
    Z.of_nat (length (flat_map (action_lines (fs w)) (entries mapping))) =
      deleted_count + moved_count.
Proof.
  intros Hrun.
  destruct (cleanup_return _ _ _ Hrun)
    as (d & m & w1 & Hcount & Hall & Hv & _ & Hout).
  split; [exact Hv|]. exists d, m, w1. split; [exact Hcount|].
  destruct (run_result _ mapping_ok _ _ _ Hall) as (Hc & Hout1 & _).
  injection Hc as -> ->. split.
  - rewrite Hout, Hout1, <- app_assoc. reflexivity.
  - rewrite action_lines_count, count_of_tests. reflexivity.
Qed.

Lemma cleanup_returns_none_witness :
  PyNone = PyNone /\
  exists deleted_count moved_count w1,
    cleanup_count mapping sample_world =
      Return (deleted_count, moved_count) w1 /\
    stdout (world_of (cleanup sample_world)) =
      (stdout sample_world ++
       flat_map (action_lines (fs sample_world)) (entries mapping) ++
       [finished_line deleted_count moved_count])%list /\
    Z.of_nat (length (flat_map (action_lines (fs sample_world))
                               (entries mapping))) =
      deleted_count + moved_count.
Proof.
  apply (cleanup_returns_none sample_world PyNone
           (world_of (cleanup sample_world))).
  vm_compute. reflexivity.
Defined.

(** ** Filenames that are not at the root *)

Lemma cleanup_with_world table w :
  fs (world_of (cleanup_with table w)) = fs w \/
  fs (world_of (cleanup_with table w)) =
    fs (world_of (visit_all (entries table) (0, 0) w)).
Proof.
  unfold cleanup_with, bind.
  destruct (list_root_files w) as [rf w0|x w0] eqn:Hls.
  - apply list_root_files_world in Hls as ->. right.
    unfold cleanup_from, bind. rewrite cleanup_count_entries.
    destruct (visit_all (entries table) (0, 0) w); reflexivity.
  - left. unfold list_root_files, bind, os_listdir, lift_call in Hls.
    destruct (OS.listdir "." (fs w)).
    + injection Hls as _ <-. reflexivity.
    + rewrite comprehension_isfile in Hls. discriminate.
Qed.

(** C8: a listed filename that is not at the root when [cleanup()] is
    called is left alone, whatever the outcome of the call: the tree
    holds at its root path and at its target path what it held, and the
    iteration that visits it changes neither counter (nor the tree, nor
    the console). *)
Theorem cleanup_skips_absent_file w target_dir filename :
  In (target_dir, filename) (entries mapping) ->
  OS.path_exists filename (fs w) = false ->
  let w' := world_of (cleanup w) in
  FS.lookup (Path.components filename) (fs w') =
    FS.lookup (Path.components filename) (fs w) /\
  FS.lookup (Path.components (Path.join target_dir filename)) (fs w') =
    FS.lookup (Path.components (Path.join target_dir filename)) (fs w) /\
  (forall pre post c0 w0,
     entries mapping = (pre ++ (target_dir, filename) :: post)%list ->
     visit_all pre (0, 0) w = Return c0 w0 ->
     cleanup_body target_dir filename c0 w0 = Return c0 w0).
Proof.
  intros Hin Hroot w'. set (e := (target_dir, filename)) in *.
  assert (Hfs : FS.lookup (src_of e) (fs w') = FS.lookup (src_of e) (fs w) /\
                FS.lookup (dst_of e) (fs w') = FS.lookup (dst_of e) (fs w)).
  { subst w'. destruct (cleanup_with_world mapping w) as [H|H];
      unfold cleanup; rewrite H; [split; reflexivity|].
    exact (run_skips _ mapping_ok w e Hin Hroot). }
  destruct Hfs as [Hs Hd]. split; [exact Hs|]. split; [exact Hd|].
  intros pre post c0 w0 Hl Hpre.
  pose proof mapping_ok as Hok. rewrite Hl in Hok.
  destruct (before_visit _ _ _ _ _ _ Hok Hpre e (or_introl eq_refl))
    as [Hs0 Hd0].
  assert (He : entry_ok e = true) by exact (table_ok_In _ _ mapping_ok Hin).
  destruct (same_tests (fs w) e (fs w0) He Hs0 Hd0) as [Hr _].
  destruct c0 as [d m]. rewrite cleanup_body_unfold.
  change (OS.path_exists filename (fs w0)) with (at_root (fs w0) e).
  rewrite Hr. change (at_root (fs w) e) with (OS.path_exists filename (fs w)).
  rewrite Hroot. reflexivity.
Qed.

Lemma cleanup_skips_absent_file_witness :
  let w' := world_of (cleanup sample_world) in
  FS.lookup (Path.components "index.html") (fs w') =
    FS.lookup (Path.components "index.html") (fs sample_world) /\
  FS.lookup (Path.components (Path.join "client/" "index.html")) (fs w') =
    FS.lookup (Path.components (Path.join "client/" "index.html"))
              (fs sample_world) /\
  (forall pre post c0 w0,
     entries mapping = (pre ++ ("client/", "index.html") :: post)%list ->
     visit_all pre (0, 0) sample_world = Return c0 w0 ->
     cleanup_body "client/" "index.html" c0 w0 = Return c0 w0).
Proof.
  apply (cleanup_skips_absent_file sample_world "client/" "index.html").
  - pick_entry.
  - vm_compute. reflexivity.
Defined.

(** ** The table *)

Lemma distinct_NoDup l : distinct l = true -> List.NoDup l.
Proof.
  induction l as [|x l IH]; intros H; constructor.
  - cbn [distinct] in H. apply andb_prop in H as [H _].
    apply negb_true_iff in H. intros Hin.
    assert (Hex : existsb (String.eqb x) l = true).
    { apply existsb_exists. exists x. split; [exact Hin|].
      apply String.eqb_refl. }
    congruence.
  - apply IH. cbn [distinct] in H. apply andb_prop in H as [_ H]. exact H.
Qed.

(** C9: in the table of the script no filename is listed twice, under
    the same target directory or under two. *)
Theorem mapping_filenames_unique : List.NoDup (filenames mapping).
Proof. apply distinct_NoDup. vm_compute. reflexivity. Qed.

(** Hence a filename has one target directory. *)
Lemma mapping_one_target target_dir target_dir' filename :
  In (target_dir, filename) (entries mapping) ->
  In (target_dir', filename) (entries mapping) ->
  target_dir = target_dir'.
Proof.
  pose proof mapping_ok as Hok. revert Hok.
  generalize (entries mapping) as l.
  induction l as [|e l IH]; intros Hok H1 H2; [contradiction|].
  apply table_ok_cons in Hok as (_ & Hall & Hl).
  assert (Hclash : forall t t', In (t', filename) l ->
                     e = (t, filename) -> False).
  { intros t t' Hin ->. apply Hall, entries_apart_elim in Hin as (H & _).
    apply apart_elim in H as [H _]. unfold src_of in H. cbn [snd] in H.
    assert (Hrefl : forall p, Path.is_prefix p p = true).
    { induction p as [|x p IHp]; [reflexivity|].
      simpl. rewrite String.eqb_refl. exact IHp. }
    rewrite Hrefl in H. discriminate. }
  destruct H1 as [H1|H1], H2 as [H2|H2].
  - congruence.
  - exfalso. eapply Hclash; eassumption.
  - exfalso. eapply Hclash; eassumption.
  - apply IH; assumption.
Qed.

(** ** The presence test *)



(** In the sample the directory [index.html] is moved, with what it
    holds, into [client/], while [root_files] is empty. *)
Example cleanup_odd_sample :
  list_root_files odd_world = Return [] odd_world /\
  exists n,
    cleanup odd_world =
      Return PyNone
        {| fs := n;
           stdout := ["Moving index.html to client/";
                      "Cleanup finished. Deleted: 0, Moved: 1"] |} /\
    OS.path_exists "index.html" n = false /\
    FS.lookup ["client"; "index.html"; "notes.txt"] n = Some (File "n").
Proof.
  split; [vm_compute; reflexivity|].
  exists (fs (world_of (cleanup odd_world))).
  repeat split; vm_compute; reflexivity.
Qed.

(** * Further properties *)

(** ** The kind of a path under updates *)

Section kinds.

Lemma prefix_refl p : Path.is_prefix p p = true.
Proof.
  induction p as [|x p IH]; [reflexivity|].
  simpl. rewrite String.eqb_refl. exact IH.
Qed.



(** An update at [p] leaves the kind of every path that is not at or
    below [p]: in particular of the directories on the way to [p]. *)
Lemma kind_update p : forall f n n' q,
  FS.update p f n = Some n' ->
  Path.is_prefix p q = false ->
  kind_at q n' = kind_at q n.
Proof.
  unfold kind_at.
  induction p as [|c p' IH]; intros f n n' q Hup Hpq; [discriminate|].
  destruct n as [d|w es]; [destruct p'; discriminate|].
  destruct p' as [|c2 p''].
  - rewrite update_last in Hup. injection Hup as <-.
    destruct q as [|c' q']; [reflexivity|].
    simpl in Hpq. rewrite andb_true_r in Hpq. apply String.eqb_neq in Hpq.
    cbn [FS.lookup]. rewrite lookup_partial_alter_ne by assumption.
    reflexivity.
  - rewrite update_below in Hup.
    destruct (es !! c) as [n0|] eqn:Hc; [|discriminate].
    destruct (FS.update (c2 :: p'') f n0) as [n1|] eqn:Hrec; [|discriminate].
    injection Hup as <-.
    destruct q as [|c' q']; [reflexivity|].
    cbn [Path.is_prefix] in Hpq. cbn [FS.lookup].
    destruct (String.eqb_spec c c') as [->|Hne].
    + simpl in Hpq. rewrite lookup_insert_eq, Hc.
      eapply IH; eassumption.
    + rewrite lookup_insert_ne by assumption. reflexivity.
Qed.



Lemma remove_kind path n n' q :
  OS.remove path n = inr n' ->
  Path.is_prefix (Path.components path) q = false ->
  kind_at q n' = kind_at q n.
Proof.
  unfold OS.remove. destruct (String.eqb path ""); [discriminate|].
  destruct (FS.lookup _ n) as [[d|wd es]|]; try discriminate;
    destruct (negb _); try discriminate.
  destruct (FS.update _ _ n) eqn:Hup; [|discriminate].
  intros [= <-] Hq. eapply kind_update; eassumption.
Qed.

Lemma rename_kind src dst n n' q :
  OS.rename src dst n = inr n' ->
  Path.is_prefix (Path.components src) q = false ->
  Path.is_prefix (Path.components dst) q = false ->
  kind_at q n' = kind_at q n.
Proof.
  unfold OS.rename. destruct (_ || _); [discriminate|].
  destruct (FS.lookup (Path.components src) n); [|discriminate].
  destruct (FS.lookup (Path.parent _) n) as [[d|wd es]|]; try discriminate.
  destruct (OS.same_path _ _); [intros [= <-]; reflexivity|].
  destruct (Path.is_prefix _ _); [discriminate|].
  destruct (negb (_ && _)); [discriminate|].
  destruct (negb (OS.movable _ _ _)); [discriminate|].
  destruct (OS.replaceable _ _); [discriminate|].
  destruct (FS.update _ _ n) as [n1|] eqn:Hup1; [|discriminate].
  destruct (FS.update _ _ n1) eqn:Hup2; [|discriminate].
  intros [= <-] Hs Hd.
  rewrite (kind_update _ _ _ _ q Hup2 Hd).
  exact (kind_update _ _ _ _ q Hup1 Hs).
Qed.

End kinds.

(** ** When the operations succeed *)

Section success.




Lemma visit_kind e c w c' w' q :
  visit e c w = Return c' w' ->
  Path.is_prefix (src_of e) q = false ->
  Path.is_prefix (dst_of e) q = false ->
  kind_at q (fs w') = kind_at q (fs w).
Proof.
  unfold visit. destruct c as [d m]. rewrite cleanup_body_unfold.
  destruct (OS.path_exists (snd e) (fs w)); [|intros [= _ <-]; reflexivity].
  destruct (OS.path_exists _ (fs w)); cbv zeta.
  - destruct (OS.remove _ _) eqn:Hrm; [discriminate|].
    intros [= _ <-] Hs _. eapply remove_kind; eassumption.
  - destruct (OS.rename _ _ _) eqn:Hmv; [discriminate|].
    intros [= _ <-] Hs Hd. eapply rename_kind; eassumption.
Qed.

End success.

(** ** Runs: which return, and what a raised one leaves *)

Section steady_runs.

Variable n0 : node.


Lemma outside_elim q l e :
  off_paths q l = true -> In e l ->
  Path.is_prefix (src_of e) q = false /\ Path.is_prefix (dst_of e) q = false.
Proof.
  unfold off_paths. rewrite forallb_forall. intros H Hin.
  specialize (H e Hin). apply andb_prop in H as [H1 H2].
  split; apply negb_true_iff; assumption.
Qed.

(** The kind of a path that is not at or below a path of the run's
    entries is the same after a run that returns. *)
Lemma visit_all_kind l : forall c w c' w' q,
  visit_all l c w = Return c' w' ->
  (forall e, In e l -> Path.is_prefix (src_of e) q = false /\
                       Path.is_prefix (dst_of e) q = false) ->
  kind_at q (fs w') = kind_at q (fs w).
Proof.
  induction l as [|e l IH]; intros c w c' w' q Hrun Hout.
  - injection Hrun as _ <-. reflexivity.
  - rewrite visit_all_cons in Hrun.
    destruct (visit e c w) as [c1 w1|x w1] eqn:Hv; [|discriminate].
    rewrite (IH _ _ _ _ q Hrun) by (intros a Ha; apply Hout; right; exact Ha).
    destruct (Hout e (or_introl eq_refl)) as [Hs Hd].
    eapply visit_kind; eassumption.
Qed.

End steady_runs.



Lemma steady_start n (l : list (string * string)) : steady n n l.
Proof. intros e _. repeat split. Qed.

Section ready_runs.

Variable l : list (string * string).
Hypothesis l_ok : table_ok l = true.




End ready_runs.

Section raised_runs.

Variable l : list (string * string).
Hypothesis l_ok : table_ok l = true.

Lemma run_prefix_result pre post w c0 w0 :
  l = (pre ++ post)%list ->
  visit_all pre (0, 0) w = Return c0 w0 ->
  c0 = (count_of (duplicated (fs w)) pre, count_of (misplaced (fs w)) pre) /\
  stdout w0 = (stdout w ++ flat_map (action_lines (fs w)) pre)%list /\
  (forall a, In a pre -> settled (fs w) (fs w0) a) /\
  untouched (fs w) (fs w0) post.
Proof.
  intros Hl Hrun. pose proof l_ok as Hok. rewrite Hl in Hok.
  pose proof (before_visit _ _ _ _ _ _ Hok Hrun) as Hun.
  apply table_ok_app in Hok as (Hok1 & _).
  destruct (run_result pre Hok1 _ _ _ Hrun) as (Hc & Hout & Hset). auto.
Qed.


End raised_runs.

Lemma cleanup_with_outcome table w root_files :
  list_root_files w = Return root_files w ->
  cleanup_with table w =
  match visit_all (entries table) (0, 0) w with
  | Return c w1 =>
      Return PyNone
        {| fs := fs w1;
           stdout := stdout w1 ++ [finished_line (fst c) (snd c)] |}
  | Raise x w1 => Raise x w1
  end.
Proof.
  intros Hls. unfold cleanup_with, bind. rewrite Hls.
  unfold cleanup_from, bind. rewrite cleanup_count_entries.
  destruct (visit_all (entries table) (0, 0) w); reflexivity.
Qed.


Lemma unlisted_clear q l : unlisted q l = true -> clear_of q l.
Proof.
  unfold unlisted. rewrite forallb_forall. intros H e Hin.
  apply andb_prop. apply H, Hin.
Qed.

(** ** Further properties of [cleanup] *)



(** A read-only directory under a listed name cannot be moved into its
    target directory: the entry is not ready, and the call raises. *)
Example cleanup_read_only_directory :
  let w := World (folder [("index.html", Dir (Perms true false) ∅);
                          ("client", folder [])]) [] in
  ready (fs w) ("client/", "index.html") = false /\
  cleanup w =
    Raise PermissionError
      {| fs := fs w; stdout := ["Moving index.html to client/"] |}.
Proof. split; vm_compute; reflexivity. Qed.



(** In the sample the failing action is the removal of the root
    [auth.ts], a directory. *)
Example cleanup_locked_sample :
  exists n,
    cleanup locked_world =
      Raise IsADirectoryError
        {| fs := n;
           stdout := ["Moving button.tsx to client/src/components/ui/";
                      "Removing duplicate: auth.ts (already in server/)"] |} /\
    OS.path_exists "client/src/components/ui/button.tsx" n = true /\
    OS.path_exists "button.tsx" n = false /\
    OS.path_exists "auth.ts" n = true /\
    OS.path_exists "index.html" n = true.
Proof.
  exists (fs (world_of (cleanup locked_world))).
  repeat split; vm_compute; reflexivity.
Qed.

(** X3: a call of [cleanup()] that raises after line 5 has returned
    leaves the tree half done, with nothing rolled back: the table
    splits into the entries before the failing one, which are all dealt
    with (root path empty, target path holding what it held or else
    what the root held), and the failing entry, which was at the root,
    with those after it, whose root and target paths are as when the
    call started. *)
Theorem cleanup_raise_keeps_progress w root_files x w' :
  list_root_files w = Return root_files w ->
  cleanup w = Raise x w' ->
  exists pre e post,
    entries mapping = (pre ++ e :: post)%list /\
    at_root (fs w) e = true /\
    (forall a, In a pre -> settled (fs w) (fs w') a) /\
    untouched (fs w) (fs w') (e :: post).
Proof.
  intros Hls Hraise. unfold cleanup in Hraise.
  rewrite (cleanup_with_outcome mapping w _ Hls) in Hraise.
  destruct (visit_all (entries mapping) (0, 0) w) as [c w1|x1 w1] eqn:Hrun;
    [discriminate|].
  injection Hraise as -> ->.
  destruct (visit_all_trace (entries mapping) (0, 0) w)
    as (pre & post & c0 & w0 & Hl & Hpre & Hrest).
  rewrite Hrun in Hrest. destruct Hrest as (e & post' & -> & Hv).
  destruct (visit_raise _ _ _ _ _ Hv) as (Hroot0 & Hfs & _).
  exists pre, e, post'.
  destruct (run_prefix_result _ mapping_ok pre (e :: post') w c0 w0 Hl Hpre)
    as (_ & _ & Hset & Hun).
  rewrite Hfs. split; [exact Hl|]. split; [|split; assumption].
  assert (He : entry_ok e = true).
  { apply (table_ok_In _ _ mapping_ok). rewrite Hl.
    apply in_or_app. right. left. reflexivity. }
  destruct (Hun e (or_introl eq_refl)) as [Hs Hd].
  destruct (same_tests (fs w) e (fs w0) He Hs Hd) as [Hr _].
  congruence.
Qed.

Lemma cleanup_raise_keeps_progress_witness :
  let w' := world_of (cleanup locked_world) in
  exists pre e post,
    entries mapping = (pre ++ e :: post)%list /\
    at_root (fs locked_world) e = true /\
    (forall a, In a pre -> settled (fs locked_world) (fs w') a) /\
    untouched (fs locked_world) (fs w') (e :: post).
Proof.
  apply (cleanup_raise_keeps_progress locked_world
           (root_files_of locked_world) IsADirectoryError).
  - vm_compute. reflexivity.
  - vm_compute. reflexivity.
Defined.






(** Where a regular file named [server] stands in the way, the error
    is another. *)
Example cleanup_blocked_target_directory :
  let w := World (folder [("auth.ts", File "auth");
                          ("server", File "not a directory")]) [] in
  exists w', cleanup w = Raise NotADirectoryError w'.
Proof. eexists. vm_compute. reflexivity. Qed.

(** ** What [cleanup] never touches *)

Lemma cleanup_trace w :
  fs (world_of (cleanup w)) = fs w \/
  exists pre post c0 w0,
    entries mapping = (pre ++ post)%list /\
    visit_all pre (0, 0) w = Return c0 w0 /\
    fs (world_of (cleanup w)) = fs w0.
Proof.
  unfold cleanup. destruct (cleanup_with_world mapping w) as [H|H];
    [left; exact H|right].
  destruct (visit_all_trace (entries mapping) (0, 0) w)
    as (pre & post & c0 & w0 & Hl & Hpre & Hrest).
  exists pre, post, c0, w0. split; [exact Hl|]. split; [exact Hpre|].
  rewrite H. destruct (visit_all (entries mapping) (0, 0) w) as [c w1|x w1].
  - destruct Hrest as (_ & _ & ->). reflexivity.
  - destruct Hrest as (e & post' & _ & Hv).
    apply visit_raise in Hv. cbn [world_of]. tauto.
Qed.

(** X5: whatever the outcome of the call, returned or raised, a path
    that is apart from the root path and the target path of every
    listed filename (a file that is not in the table, anywhere in the
    tree) holds after the call exactly what it held before. *)
Theorem cleanup_leaves_unlisted_paths w q :
  unlisted q (entries mapping) = true ->
  FS.lookup q (fs (world_of (cleanup w))) = FS.lookup q (fs w).
Proof.
  intros Hq. apply unlisted_clear in Hq.
  destruct (cleanup_trace w) as [H|(pre & post & c0 & w0 & Hl & Hpre & H)];
    rewrite H; [reflexivity|].
  pose proof mapping_ok as Hok. rewrite Hl in Hok.
  apply table_ok_app in Hok as (Hok1 & _).
  destruct (visit_all_return (fs w) pre (0, 0) w c0 w0 Hok1
              (untouched_refl _ _) Hpre) as (_ & _ & _ & Hframe).
  apply Hframe. intros e Hin. apply Hq. rewrite Hl.
  apply in_or_app. left. exact Hin.
Qed.

Lemma cleanup_leaves_unlisted_paths_witness :
  FS.lookup ["README.md"] (fs (world_of (cleanup locked_world))) =
  FS.lookup ["README.md"] (fs locked_world).
Proof.
  apply (cleanup_leaves_unlisted_paths locked_world ["README.md"]).
  vm_compute. reflexivity.
Defined.

(** X6: whatever the outcome of the call, a path that is neither a
    root path or target path of a listed filename nor below one keeps
    its kind: the directories of the tree, the working directory and
    the target directories among them, are neither created nor removed
    nor replaced by files, and keep their write permission. *)
Theorem cleanup_keeps_directories w q :
  off_paths q (entries mapping) = true ->
  kind_at q (fs (world_of (cleanup w))) = kind_at q (fs w).
Proof.
  intros Hq.
  destruct (cleanup_trace w) as [H|(pre & post & c0 & w0 & Hl & Hpre & H)];
    rewrite H; [reflexivity|].
  apply (visit_all_kind pre (0, 0) w c0 w0 q Hpre).
  intros e Hin. apply (outside_elim q (entries mapping) e Hq).
  rewrite Hl. apply in_or_app. left. exact Hin.
Qed.

Lemma cleanup_keeps_directories_witness :
  kind_at ["client"; "src"; "components"; "ui"]
          (fs (world_of (cleanup sample_world))) =
  kind_at ["client"; "src"; "components"; "ui"] (fs sample_world).
Proof.
  apply (cleanup_keeps_directories sample_world
           ["client"; "src"; "components"; "ui"]).
  vm_compute. reflexivity.
Defined.

(** ** Order, and running again *)

Lemma clear_of_perm q l l' : Permutation l l' -> clear_of q l -> clear_of q l'.
Proof.
  intros Hp H e Hin. apply H.
  eapply Permutation_in; [symmetry; exact Hp|exact Hin].
Qed.

(** X7: when the table is walked in another order and both calls
    return, they end with the same two counters, the same entry at the
    root path and at the target path of every listed filename, and the
    same entry at every path apart from those. *)
Theorem cleanup_result_order_independent table w v1 w1 v2 w2 :
  Permutation (entries table) (entries mapping) ->
  cleanup w = Return v1 w1 ->
  cleanup_with table w = Return v2 w2 ->
  (exists counts wa wb,
     cleanup_count mapping w = Return counts wa /\
     cleanup_count table w = Return counts wb) /\
  (forall e, In e (entries mapping) ->
     FS.lookup (src_of e) (fs w1) = FS.lookup (src_of e) (fs w2) /\
     FS.lookup (dst_of e) (fs w1) = FS.lookup (dst_of e) (fs w2)) /\
  (forall q, unlisted q (entries mapping) = true ->
     FS.lookup q (fs w1) = FS.lookup q (fs w2)).
Proof.
  intros Hperm Hrun1 Hrun2.
  assert (Hok : table_ok (entries table) = true).
  { apply (table_ok_perm (entries mapping)); [symmetry; exact Hperm|].
    exact mapping_ok. }
  apply cleanup_with_return in Hrun1 as (c1 & wa & Hc1 & _ & Hfs1 & _).
  apply cleanup_with_return in Hrun2 as (c2 & wb & Hc2 & _ & Hfs2 & _).
  pose proof Hc1 as Hall1. pose proof Hc2 as Hall2.
  rewrite cleanup_count_entries in Hall1, Hall2.
  destruct (visit_all_return (fs w) _ _ _ _ _ mapping_ok
              (untouched_refl _ _) Hall1) as (Hr1 & _ & Hset1 & Hframe1).
  destruct (visit_all_return (fs w) _ _ _ _ _ Hok
              (untouched_refl _ _) Hall2) as (Hr2 & _ & Hset2 & Hframe2).
  rewrite Hfs1, Hfs2. split; [|split].
  - exists c1, wa, wb. split; [exact Hc1|]. rewrite Hc2, Hr1, Hr2.
    rewrite !(count_of_perm _ _ _ Hperm). reflexivity.
  - intros e Hin.
    destruct (Hset1 e Hin) as [Hs1 Hd1].
    assert (Hin2 : In e (entries table)).
    { eapply Permutation_in; [symmetry; exact Hperm|exact Hin]. }
    destruct (Hset2 e Hin2) as [Hs2 Hd2].
    rewrite Hs1, Hs2, Hd1, Hd2. split; reflexivity.
  - intros q Hq. apply unlisted_clear in Hq.
    rewrite (Hframe1 q Hq).
    rewrite (Hframe2 q); [reflexivity|].
    eapply clear_of_perm; [symmetry; exact Hperm|exact Hq].
Qed.

Lemma cleanup_result_order_independent_witness :
  let w1 := world_of (cleanup sample_world) in
  let w2 := world_of (cleanup_with (rev mapping) sample_world) in
  (exists counts wa wb,
     cleanup_count mapping sample_world = Return counts wa /\
     cleanup_count (rev mapping) sample_world = Return counts wb) /\
  (forall e, In e (entries mapping) ->
     FS.lookup (src_of e) (fs w1) = FS.lookup (src_of e) (fs w2) /\
     FS.lookup (dst_of e) (fs w1) = FS.lookup (dst_of e) (fs w2)) /\
  (forall q, unlisted q (entries mapping) = true ->
     FS.lookup q (fs w1) = FS.lookup q (fs w2)).
Proof.
  apply (cleanup_result_order_independent (rev mapping) sample_world
           PyNone (world_of (cleanup sample_world))
           PyNone (world_of (cleanup_with (rev mapping) sample_world))).
  - apply Permutation_flat_map, Permutation_sym, Permutation_rev.
  - vm_compute. reflexivity.
  - vm_compute. reflexivity.
Defined.

(** The error of an iteration depends on the tree only. *)
Lemma visit_raise_again e c w x wr c2 w2 :
  fs w2 = fs w ->
  visit e c w = Raise x wr ->
  exists wr', visit e c2 w2 = Raise x wr' /\ fs wr' = fs w2.
Proof.
  intros Hfs. unfold visit. destruct c as [d m], c2 as [d2 m2].
  rewrite !cleanup_body_unfold, Hfs.
  destruct (OS.path_exists (snd e) (fs w)); [|discriminate].
  destruct (OS.path_exists _ (fs w)); cbv zeta.
  - destruct (OS.remove _ _); [|discriminate].
    intros [= <- _]. eexists. split; [reflexivity|]. cbn [fs]. congruence.
  - destruct (OS.rename _ _ _); [|discriminate].
    intros [= <- _]. eexists. split; [reflexivity|]. cbn [fs]. congruence.
Qed.

(** X8: after a call of [cleanup()] that raised in a working directory,
    a second call on the tree it left raises the same error and changes
    nothing: the entries already dealt with are skipped, and the failing
    operation is tried again on the same tree. *)
Theorem cleanup_rerun_after_failure w x w' :
  is_folder (fs w) = true ->
  cleanup w = Raise x w' ->
  exists w'', cleanup w' = Raise x w'' /\ fs w'' = fs w'.
Proof.
  intros _ Hraise.
  destruct (list_root_files w) as [rf wl|xl wl] eqn:Hls.
  - pose proof (list_root_files_world _ _ _ Hls) as ->.
    unfold cleanup in *.
    rewrite (cleanup_with_outcome mapping w rf Hls) in Hraise.
    destruct (visit_all (entries mapping) (0, 0) w) as [c w1|x1 w1] eqn:Hrun;
      [discriminate|].
    injection Hraise as -> ->.
    destruct (visit_all_trace (entries mapping) (0, 0) w)
      as (pre & post & c0 & w0 & Hl & Hpre & Hrest).
    rewrite Hrun in Hrest. destruct Hrest as (e & post' & -> & Hv).
    destruct (visit_raise _ _ _ _ _ Hv) as (_ & Hfs & _).
    pose proof mapping_ok as Hok. rewrite Hl in Hok.
    apply table_ok_app in Hok as (Hok1 & _).
    destruct (run_result pre Hok1 _ _ _ Hpre) as (_ & _ & Hset).
    assert (Hnone : forall a, In a pre -> at_root (fs w') a = false).
    { intros a Hin. rewrite Hfs.
      apply (settled_tests (fs w) (fs w0) a);
        [exact (table_ok_In _ _ Hok1 Hin)|exact (Hset a Hin)]. }
    assert (Hlist : listable (fs w') = true).
    { rewrite Hfs, (visit_all_listable _ _ _ _ _ Hpre).
      apply list_root_files_listable. eauto. }
    apply list_root_files_listable in Hlist as [rf' Hls'].
    destruct (visit_raise_again e c0 w0 x w' (0, 0) w' Hfs Hv)
      as (w'' & Hv' & Hfs').
    exists w''. split; [|exact Hfs'].
    rewrite (cleanup_with_outcome mapping w' rf' Hls'), Hl, visit_all_app,
      (visit_all_nothing pre (0, 0) w' Hnone), visit_all_cons, Hv'.
    reflexivity.
  - pose proof (list_root_files_raise _ _ _ Hls) as ->.
    unfold cleanup, cleanup_with, bind in Hraise. rewrite Hls in Hraise.
    injection Hraise as <- <-.
    exists w. split; [|reflexivity].
    unfold cleanup, cleanup_with, bind. rewrite Hls. reflexivity.
Qed.

Lemma cleanup_rerun_after_failure_witness :
  exists w'',
    cleanup (world_of (cleanup locked_world)) = Raise IsADirectoryError w'' /\
    fs w'' = fs (world_of (cleanup locked_world)).
Proof.
  apply (cleanup_rerun_after_failure locked_world IsADirectoryError
           (world_of (cleanup locked_world))).
  - vm_compute. reflexivity.
  - vm_compute. reflexivity.
Defined.

(** ** Edge cases *)

(** X9: when line 5 has returned and no listed filename is at the root,
    the call returns [None], leaves the tree as it is, and prints only
    the closing line with both counters at zero. *)
Theorem cleanup_nothing_to_do w root_files :
  list_root_files w = Return root_files w ->
  existsb (at_root (fs w)) (entries mapping) = false ->
  cleanup w =
    Return PyNone
      {| fs := fs w;
         stdout := stdout w ++ ["Cleanup finished. Deleted: 0, Moved: 0"] |}.
Proof.
  intros Hls Hnone. unfold cleanup.
  rewrite (cleanup_with_outcome mapping w root_files Hls).
  rewrite visit_all_nothing; [reflexivity|].
  intros e Hin. destruct (at_root (fs w) e) eqn:Hroot; [|reflexivity].
  assert (Hex : existsb (at_root (fs w)) (entries mapping) = true).
  { apply existsb_exists. exists e. split; assumption. }
  congruence.
Qed.

Lemma cleanup_nothing_to_do_witness :
  cleanup bare_world =
    Return PyNone
      {| fs := fs bare_world;
         stdout := stdout bare_world ++
                   ["Cleanup finished. Deleted: 0, Moved: 0"] |}.
Proof.
  apply (cleanup_nothing_to_do bare_world (root_files_of bare_world)).
  - vm_compute. reflexivity.
  - vm_compute. reflexivity.
Defined.

(** In a working directory that cannot be listed, line 5 raises and
    nothing else happens. *)
Example cleanup_unlistable_directory :
  let w := World (Dir (Perms false true) ∅) [] in
  cleanup w = Raise PermissionError w.
Proof. vm_compute. reflexivity. Qed.

Lemma lookup_app p : forall r n,
  FS.lookup (p ++ r) n =
  match FS.lookup p n with
  | Some m => FS.lookup r m
  | None => None
  end.
Proof.
  induction p as [|c p IH]; intros r n; [reflexivity|].
  cbn [app FS.lookup]. destruct n as [d|wd es]; [reflexivity|].
  destruct (es !! c); [apply IH|reflexivity].
Qed.

(** X10: when a listed name is at the root and nothing is at its target
    path, a call that returns has moved the entry whole; if it is a
    directory, with all it holds: every path below the target path
    holds what the same path below the root path held. *)
Theorem cleanup_moves_directory_contents w v w' target_dir filename r :
  In (target_dir, filename) (entries mapping) ->
  OS.path_exists filename (fs w) = true ->
  OS.path_exists (Path.join target_dir filename) (fs w) = false ->
  cleanup w = Return v w' ->
  FS.lookup (Path.components (Path.join target_dir filename) ++ r) (fs w') =
  FS.lookup (Path.components filename ++ r) (fs w).
Proof.
  intros Hin Hroot Htgt Hrun. set (e := (target_dir, filename)) in *.
  assert (He : entry_ok e = true) by exact (table_ok_In _ _ mapping_ok Hin).
  change (at_target (fs w) e = false) in Htgt.
  rewrite at_target_lookup in Htgt by exact He.
  destruct (cleanup_return _ _ _ Hrun)
    as (d & m & w1 & _ & Hall & _ & Hfs & _).
  destruct (run_result _ mapping_ok _ _ _ Hall) as (_ & _ & Hset).
  destruct (Hset e Hin) as [_ Hd].
  change (FS.lookup (dst_of e ++ r) (fs w') = FS.lookup (src_of e ++ r) (fs w)).
  rewrite !lookup_app, Hfs, Hd.
  destruct (FS.lookup (dst_of e) (fs w)); [discriminate|reflexivity].
Qed.

Lemma cleanup_moves_directory_contents_witness :
  FS.lookup (Path.components (Path.join "client/" "index.html") ++
             ["notes.txt"]) (fs (world_of (cleanup odd_world))) =
  FS.lookup (Path.components "index.html" ++ ["notes.txt"]) (fs odd_world).
Proof.
  apply (cleanup_moves_directory_contents odd_world PyNone
           (world_of (cleanup odd_world)) "client/" "index.html"
           ["notes.txt"]).
  - pick_entry.
  - vm_compute. reflexivity.
  - vm_compute. reflexivity.
  - vm_compute. reflexivity.
Defined.
